(** * NYC taxi workshop notebooks: cleaning, quality checks, derived columns

    A shallow embedding of the declarative logic of
    [databricks/notebooks/01_data_ingestion.py] and
    [databricks/notebooks/02_data_analysis.py].

    Conventions of the embedding.
    - A DataFrame is a [list] of rows; [filter] keeps the rows on which the
      condition evaluates to TRUE, in their order.
    - Every column of [taxi_schema] is nullable: a cell is an [option], with
      [None] for SQL NULL.  Column expressions follow SQL's three-valued
      logic ([&] and [|] are Kleene conjunction and disjunction, a comparison
      with NULL is NULL).
    - A [TimestampType] cell is a number of microseconds since the epoch;
      [cast("long")] is the floor of the number of seconds.
    - A [DoubleType] cell is a rational number ([Q]); rounding and NaN are
      outside the model.  Division yields NULL on a zero divisor.  What is
      proved of double columns are bounds, orderings, NULL-ness and
      equalities between the same expression; no exact identity between
      different arithmetic expressions is claimed of the engine.
    - The session time zone is a function giving, at each instant, the
      offset from UTC in seconds. *)

From Stdlib Require Import String.
From Stdlib Require Import ZArith QArith List Bool Lia Lqa.
From Stdlib Require Import Sorting.Sorted Permutation.
Import ListNotations.

Local Open Scope Z_scope.

(** ** Column expressions of the dataframe engine *)

Module Spark.

(** A cell of a nullable column. *)
Definition cell (A : Type) : Type := option A.

Definition lit {A : Type} (a : A) : cell A := Some a.

Definition isNull {A : Type} (c : cell A) : cell bool :=
  match c with
  | None => Some true
  | Some _ => Some false
  end.

Definition isNotNull {A : Type} (c : cell A) : cell bool :=
  match c with
  | None => Some false
  | Some _ => Some true
  end.

(** Kleene conjunction: [c1 & c2]. *)
Definition and3 (a b : cell bool) : cell bool :=
  match a, b with
  | Some false, _ => Some false
  | _, Some false => Some false
  | Some true, Some true => Some true
  | _, _ => None
  end.

(** Kleene disjunction: [c1 | c2]. *)
Definition or3 (a b : cell bool) : cell bool :=
  match a, b with
  | Some true, _ => Some true
  | _, Some true => Some true
  | Some false, Some false => Some false
  | _, _ => None
  end.

(** A binary operator that is NULL as soon as one operand is. *)
Definition lift2 {A B C : Type} (f : A -> B -> C)
    (a : cell A) (b : cell B) : cell C :=
  match a, b with
  | Some x, Some y => Some (f x y)
  | _, _ => None
  end.

Definition Qltb (x y : Q) : bool := negb (Qle_bool y x).

(** Comparisons of integral cells (int, long, timestamp). *)
Definition ltZ := lift2 Z.ltb.
Definition leZ := lift2 Z.leb.
Definition gtZ := lift2 Z.gtb.
Definition geZ := lift2 Z.geb.
Definition eqZ := lift2 Z.eqb.

(** Comparisons of double cells. *)
Definition ltQ := lift2 Qltb.
Definition leQ := lift2 Qle_bool.
Definition gtQ := lift2 (fun x y => Qltb y x).
Definition geQ := lift2 (fun x y => Qle_bool y x).

(** [c.between(lo, hi)] is [(c >= lo) & (c <= hi)]. *)
Definition betweenZ (c : cell Z) (lo hi : Z) : cell bool :=
  and3 (geZ c (lit lo)) (leZ c (lit hi)).

Definition subZ := lift2 Z.sub.

(** Implicit cast of an integral cell to double. *)
Definition to_double (c : cell Z) : cell Q := option_map inject_Z c.

(** [a * b] on doubles, here without rounding. *)
Definition mulQ := lift2 Qmult.

(** [a / b] on doubles: NULL when [b] is zero; here without rounding, so a
    quotient of non-zero numbers is never 0, where a double can underflow. *)
Definition divQ (a b : cell Q) : cell Q :=
  match a, b with
  | Some x, Some y => if Qeq_bool y 0 then None else Some (x / y)%Q
  | _, _ => None
  end.

(** [when(c, v).otherwise(w)]: [v] when [c] is TRUE, [w] when it is FALSE
    or NULL. *)
Definition when_otherwise {A : Type} (c : cell bool) (v w : cell A) : cell A :=
  match c with
  | Some true => v
  | _ => w
  end.

(** A row passes a filter when the condition is TRUE (not FALSE, not NULL). *)
Definition holds (c : cell bool) : bool :=
  match c with
  | Some true => true
  | _ => false
  end.

Definition filter {R : Type} (cond : R -> cell bool) (df : list R) : list R :=
  List.filter (fun r => holds (cond r)) df.

Definition count {R : Type} (df : list R) : Z := Z.of_nat (length df).

(** Timestamps: microseconds since 1970-01-01T00:00:00Z. *)
Definition timestamp : Type := Z.

Definition MICROS_PER_SECOND : Z := 1000000.

(** [ts.cast("long")]: whole seconds since the epoch, rounded down. *)
Definition cast_long (ts : cell timestamp) : cell Z :=
  option_map (fun us => us / MICROS_PER_SECOND) ts.

(** The session time zone: the offset from UTC, in seconds, that is in
    force at each instant. *)
Definition zone : Type := timestamp -> Z.

Definition UTC : zone := fun _ => 0.

(** Seconds on the wall clock of the session time zone at an instant: the
    whole seconds since the epoch plus the offset in force at that instant. *)
Definition local_seconds (tz : zone) (us : timestamp) : Z :=
  us / MICROS_PER_SECOND + tz us.

(** [hour(ts)]. *)
Definition hour (tz : zone) (ts : cell timestamp) : cell Z :=
  option_map (fun us => (local_seconds tz us mod 86400) / 3600) ts.

(** [dayofweek(ts)]: 1970-01-01 was a Thursday, numbered 5. *)
Definition dayofweek (tz : zone) (ts : cell timestamp) : cell Z :=
  option_map (fun us => (local_seconds tz us / 86400 + 4) mod 7 + 1) ts.

(** *** Grouping, aggregation and ordering *)

(** Equality of grouping keys: NULL is a key of its own. *)
Definition same_key (a b : cell Z) : bool :=
  match a, b with
  | None, None => true
  | Some x, Some y => x =? y
  | _, _ => false
  end.

(** The keys of a column, each once, in order of first occurrence. *)
Fixpoint distinct_keys (ks : list (cell Z)) : list (cell Z) :=
  match ks with
  | [] => []
  | k :: rest =>
      k :: List.filter (fun k' => negb (same_key k k')) (distinct_keys rest)
  end.

(** The rows of [df] whose key is [k]. *)
Definition group {R : Type} (key : R -> cell Z) (df : list R) (k : cell Z)
    : list R :=
  List.filter (fun r => same_key k (key r)) df.

(** [df.groupBy(key)]: one group per distinct key. *)
Definition groupBy {R : Type} (key : R -> cell Z) (df : list R)
    : list (cell Z * list R) :=
  map (fun k => (k, group key df k)) (distinct_keys (map key df)).

Definition non_null {A : Type} (cs : list (cell A)) : list A :=
  flat_map (fun c => match c with Some x => [x] | None => [] end) cs.

Definition sumQ (xs : list Q) : Q := fold_right Qplus 0%Q xs.

(** [avg(c)]: the mean of the non-null cells, NULL when there is none; here
    the exact mean, where the engine rounds the sum and the quotient. *)
Definition avg (cs : list (cell Q)) : cell Q :=
  match non_null cs with
  | [] => None
  | xs => Some (sumQ xs / inject_Z (count xs))%Q
  end.

(** [desc(c)]: may a row with cell [a] stand before one with cell [b]?
    Larger values first, NULL last. *)
Definition desc (a b : cell Q) : bool :=
  match a, b with
  | Some x, Some y => Qle_bool y x
  | Some _, None => true
  | None, Some _ => false
  | None, None => true
  end.

Fixpoint insert_by {R : Type} (before : R -> R -> bool) (r : R) (l : list R)
    : list R :=
  match l with
  | [] => [r]
  | h :: t => if before r h then r :: l else h :: insert_by before r t
  end.

(** [df.orderBy(...)], as a stable insertion sort. *)
Definition orderBy {R : Type} (before : R -> R -> bool) (df : list R) : list R :=
  fold_right (insert_by before) [] df.

(** [df.show(n)] displays the first [n] rows. *)
Definition show {R : Type} (n : nat) (df : list R) : list R := firstn n df.

End Spark.

Module Import SparkNotations.
Infix "&&&" := Spark.and3 (at level 40, left associativity).
Infix "|||" := Spark.or3 (at level 50, left associativity).
End SparkNotations.

(** ** Order-preserving selection of rows *)

Section Subsequence.
Context {A : Type}.

(** [subseq s l]: [s] is [l] with some elements dropped. *)
Inductive subseq : list A -> list A -> Prop :=
| subseq_nil : subseq [] []
| subseq_keep : forall x s l, subseq s l -> subseq (x :: s) (x :: l)
| subseq_drop : forall x s l, subseq s l -> subseq s (x :: l).

(** [keeps P l s]: [s] is [l] without the elements that fail [P]; nothing
    is added, nothing that satisfies [P] is lost, the order stays. *)
Inductive keeps (P : A -> Prop) : list A -> list A -> Prop :=
| keeps_nil : keeps P [] []
| keeps_yes : forall x l s, P x -> keeps P l s -> keeps P (x :: l) (x :: s)
| keeps_no : forall x l s, ~ P x -> keeps P l s -> keeps P (x :: l) s.

(** [tally P l n]: exactly [n] elements of [l] satisfy [P]. *)
Definition tally (P : A -> Prop) (l : list A) (n : Z) : Prop :=
  exists s, keeps P l s /\ n = Z.of_nat (length s).
End Subsequence.

(** ** The ingestion notebook *)

Module Ingestion.
Import Spark.

(** [taxi_schema]: the 18 nullable columns of a raw trip record. *)
Record Row : Type := mkRow {
  VendorID : cell Z;
  tpep_pickup_datetime : cell timestamp;
  tpep_dropoff_datetime : cell timestamp;
  passenger_count : cell Z;
  trip_distance : cell Q;
  RatecodeID : cell Z;
  store_and_fwd_flag : cell string;
  PULocationID : cell Z;
  DOLocationID : cell Z;
  payment_type : cell Z;
  fare_amount : cell Q;
  extra : cell Q;
  mta_tax : cell Q;
  tip_amount : cell Q;
  tolls_amount : cell Q;
  improvement_surcharge : cell Q;
  total_amount : cell Q;
  congestion_surcharge : cell Q
}.

(** [col("tpep_dropoff_datetime").cast("long") -
    col("tpep_pickup_datetime").cast("long")]. *)
Definition elapsed_seconds (r : Row) : cell Z :=
  subZ (cast_long (tpep_dropoff_datetime r))
       (cast_long (tpep_pickup_datetime r)).

(** The condition of [df_cleaned = df_raw.filter(...)]. *)
Definition clean_condition (r : Row) : cell bool :=
  isNotNull (tpep_pickup_datetime r) &&&
  isNotNull (tpep_dropoff_datetime r) &&&
  gtZ (tpep_dropoff_datetime r) (tpep_pickup_datetime r) &&&
  leZ (elapsed_seconds r) (lit 86400) &&&
  geZ (passenger_count r) (lit 1) &&& leZ (passenger_count r) (lit 8) &&&
  gtQ (trip_distance r) (lit 0%Q) &&&
  geQ (fare_amount r) (lit 0%Q) &&& leQ (fare_amount r) (lit 500%Q).

Definition df_cleaned (df_raw : list Row) : list Row :=
  filter clean_condition df_raw.

(** The cleaning predicates in the words of the specification: timestamps
    non-null, dropoff after pickup, at most 86400 elapsed seconds, 1 to 8
    passengers, positive distance, fare between 0 and 500. *)
Definition clean_spec (r : Row) : Prop :=
  exists p d n x f,
    tpep_pickup_datetime r = Some p /\
    tpep_dropoff_datetime r = Some d /\
    p < d /\
    d / MICROS_PER_SECOND - p / MICROS_PER_SECOND <= 86400 /\
    passenger_count r = Some n /\ 1 <= n <= 8 /\
    trip_distance r = Some x /\ (0 < x)%Q /\
    fare_amount r = Some f /\ (0 <= f)%Q /\ (f <= 500)%Q.


(** *** Data quality checks *)

(** A check result: [(check_name, issue_count, passed)]. *)
Definition Check : Type := (string * Z * bool)%type.

Definition null_times_condition (r : Row) : cell bool :=
  isNull (tpep_pickup_datetime r) ||| isNull (tpep_dropoff_datetime r).

Definition invalid_duration_condition (r : Row) : cell bool :=
  leZ (tpep_dropoff_datetime r) (tpep_pickup_datetime r) |||
  gtZ (elapsed_seconds r) (lit 86400).

Definition invalid_passenger_count_condition (r : Row) : cell bool :=
  ltZ (passenger_count r) (lit 1) ||| gtZ (passenger_count r) (lit 10).

Definition negative_distance_condition (r : Row) : cell bool :=
  leQ (trip_distance r) (lit 0%Q).

Definition invalid_fare_condition (r : Row) : cell bool :=
  ltQ (fare_amount r) (lit 0%Q) ||| gtQ (fare_amount r) (lit 1000%Q).

(** Python's [issues < df.count() * ratio], an integer against a float. *)
Definition below_fraction (issues total : Z) (ratio : Q) : bool :=
  Qltb (inject_Z issues) (inject_Z total * ratio)%Q.

Definition run_data_quality_checks (df : list Row) : list Check :=
  let checks := [] in
  let null_times := count (filter null_times_condition df) in
  let checks :=
    checks ++ [("Null pickup/dropoff times"%string, null_times,
                null_times =? 0)] in
  let invalid_duration := count (filter invalid_duration_condition df) in
  let checks :=
    checks ++ [("Invalid trip duration"%string, invalid_duration,
                below_fraction invalid_duration (count df) (1 # 100))] in
  let invalid_passenger_count :=
    count (filter invalid_passenger_count_condition df) in
  let checks :=
    checks ++ [("Invalid passenger count"%string, invalid_passenger_count,
                below_fraction invalid_passenger_count (count df) (5 # 100))] in
  let negative_distance := count (filter negative_distance_condition df) in
  let checks :=
    checks ++ [("Negative trip distance"%string, negative_distance,
                below_fraction negative_distance (count df) (1 # 100))] in
  let invalid_fare := count (filter invalid_fare_condition df) in
  let checks :=
    checks ++ [("Invalid fare amount"%string, invalid_fare,
                below_fraction invalid_fare (count df) (1 # 100))] in
  checks.

(** The globals of the notebook that the quality-check cell touches. *)
Record Notebook : Type := mkNotebook {
  nb_df_raw : list Row;
  nb_quality_checks : list Check
}.

(** [quality_checks = run_data_quality_checks(df_raw)]. *)
Definition quality_check_cell (nb : Notebook) : Notebook :=
  {| nb_df_raw := nb_df_raw nb;
     nb_quality_checks := run_data_quality_checks (nb_df_raw nb) |}.

(** The violations in the words of the specification. *)
Definition null_times_spec (r : Row) : Prop :=
  tpep_pickup_datetime r = None \/ tpep_dropoff_datetime r = None.

Definition invalid_duration_spec (r : Row) : Prop :=
  exists p d,
    tpep_pickup_datetime r = Some p /\ tpep_dropoff_datetime r = Some d /\
    (d <= p \/ d / MICROS_PER_SECOND - p / MICROS_PER_SECOND > 86400).

Definition invalid_passenger_count_spec (r : Row) : Prop :=
  exists n, passenger_count r = Some n /\ (n < 1 \/ n > 10).

Definition negative_distance_spec (r : Row) : Prop :=
  exists x, trip_distance r = Some x /\ (x <= 0)%Q.

Definition invalid_fare_spec (r : Row) : Prop :=
  exists f, fare_amount r = Some f /\ (f < 0 \/ 1000 < f)%Q.

(** A check result with the given name, whose count is the number of rows
    in violation and whose flag is set exactly when [pass] holds of it. *)
Definition check_ok (c : Check) (name : string) (violation : Row -> Prop)
    (pass : Z -> Prop) (df : list Row) : Prop :=
  exists n b,
    c = (name, n, b) /\ tally violation df n /\ (b = true <-> pass n) /\
    0 <= n <= count df.

(** Is the row counted by one of the five checks? *)
Definition flagged (r : Row) : bool :=
  holds (null_times_condition r) || holds (invalid_duration_condition r) ||
  holds (invalid_passenger_count_condition r) ||
  holds (negative_distance_condition r) || holds (invalid_fare_condition r).

(** *** Derived columns *)

(** A row of [df_enhanced]: the trip and the four derived columns. *)
Record Enhanced : Type := mkEnhanced {
  trip : Row;
  trip_duration_minutes : cell Q;
  pickup_hour : cell Z;
  pickup_day_of_week : cell Z;
  trip_speed_mph : cell Q
}.

(** The chain of [withColumn] calls; a later expression reads the columns
    added before it.  [tz] is the session time zone. *)
Definition enhance (tz : Spark.zone) (r : Row) : Enhanced :=
  let duration := divQ (to_double (elapsed_seconds r)) (to_double (lit 60)) in
  let hour_ := hour tz (tpep_pickup_datetime r) in
  let dow := dayofweek tz (tpep_pickup_datetime r) in
  let speed :=
    when_otherwise (gtQ duration (lit 0%Q))
      (divQ (trip_distance r) (divQ duration (to_double (lit 60))))
      (to_double (lit 0)) in
  mkEnhanced r duration hour_ dow speed.

Definition df_enhanced (tz : Spark.zone) (df_raw : list Row) : list Enhanced :=
  map (enhance tz) (df_cleaned df_raw).

(** *** The Delta table *)

(** The external table store, as far as the notebook relies on it: the
    files of the table are one directory per value of the partition
    column. *)
Definition DeltaTable : Type := list (cell Z * list Enhanced).

(** [df_enhanced.write.format("delta").mode("overwrite")
      .partitionBy("pickup_day_of_week").save(delta_table_path)]. *)
Definition delta_save (df : list Enhanced) : DeltaTable :=
  groupBy pickup_day_of_week df.

(** [spark.read.format("delta").load(delta_table_path)]. *)
Definition delta_load (t : DeltaTable) : list Enhanced :=
  concat (map snd t).

(** *** Validation after the Delta save *)

(** A cell either lets the run proceed or stops it with a failed [assert]. *)
Inductive outcome (A : Type) : Type :=
| Proceeds (a : A)
| AssertionError (msg : string).
Arguments Proceeds {A} a.
Arguments AssertionError {A} msg.

Definition bind {A B : Type} (m : outcome A) (k : A -> outcome B) : outcome B :=
  match m with
  | Proceeds a => k a
  | AssertionError msg => AssertionError msg
  end.

(** [assert cond, msg]. *)
Definition assert_ (cond : bool) (msg : string) : outcome unit :=
  if cond then Proceeds tt else AssertionError msg.

(** What the cells after the assertion display: the columns handed to
    [summary()] and the ten sample rows of [show(10)]. *)
Record Report : Type := mkReport {
  summary_input : list (cell Q * cell Q * cell Q * cell Q);
  sample_data : list (cell timestamp * cell Q * cell Q * cell Q * cell Z)
}.

Definition display (df_delta : list Enhanced) : Report :=
  {| summary_input :=
       map (fun e => (trip_distance (trip e), fare_amount (trip e),
                      trip_duration_minutes e, trip_speed_mph e)) df_delta;
     sample_data :=
       firstn 10
         (map (fun e => (tpep_pickup_datetime (trip e), trip_distance (trip e),
                         fare_amount (trip e), trip_duration_minutes e,
                         pickup_hour e)) df_delta) |}.

(** The validation cell and what follows it.  [df_delta] is what the read
    from [delta_table_path] returned, [written] is [df_enhanced]. *)
Definition validate_and_summarise (df_delta written : list Enhanced)
    : outcome Report :=
  bind (assert_ (count df_delta =? count written)
                "Record count mismatch after Delta save"%string)
       (fun _ => Proceeds (display df_delta)).

End Ingestion.

(** ** The analysis notebook *)

Module Analysis.
Import Spark.

(** [df = spark.read.format("delta").table("nyc_taxi_data")]: the rows have
    the columns written by the ingestion notebook. *)
Definition TableRow : Type := Ingestion.Enhanced.

(** The eight columns of [df.select(...)]. *)
Record Selected : Type := mkSelected {
  trip_distance : cell Q;
  passenger_count : cell Z;
  pickup_hour : cell Z;
  pickup_day_of_week : cell Z;
  trip_duration_minutes : cell Q;
  PULocationID : cell Z;
  DOLocationID : cell Z;
  fare_amount : cell Q
}.

Definition select (e : TableRow) : Selected :=
  {| trip_distance := Ingestion.trip_distance (Ingestion.trip e);
     passenger_count := Ingestion.passenger_count (Ingestion.trip e);
     pickup_hour := Ingestion.pickup_hour e;
     pickup_day_of_week := Ingestion.pickup_day_of_week e;
     trip_duration_minutes := Ingestion.trip_duration_minutes e;
     PULocationID := Ingestion.PULocationID (Ingestion.trip e);
     DOLocationID := Ingestion.DOLocationID (Ingestion.trip e);
     fare_amount := Ingestion.fare_amount (Ingestion.trip e) |}.

(** The outlier filter of the modeling subset. *)
Definition ml_condition (m : Selected) : cell bool :=
  gtQ (fare_amount m) (lit 0%Q) &&& ltQ (fare_amount m) (lit 100%Q) &&&
  gtQ (trip_distance m) (lit 0%Q) &&& ltQ (trip_distance m) (lit 50%Q) &&&
  gtQ (trip_duration_minutes m) (lit 1%Q) &&&
  ltQ (trip_duration_minutes m) (lit 120%Q).

(** A row of [ml_df] after the three [withColumn] calls. *)
Record Features : Type := mkFeatures {
  selected : Selected;
  is_weekend : cell Z;
  is_rush_hour : cell Z;
  trip_speed_mph : cell Q
}.

Definition add_features (m : Selected) : Features :=
  let weekend :=
    when_otherwise
      (eqZ (pickup_day_of_week m) (lit 1) ||| eqZ (pickup_day_of_week m) (lit 7))
      (lit 1) (lit 0) in
  let rush :=
    when_otherwise
      (betweenZ (pickup_hour m) 7 9 ||| betweenZ (pickup_hour m) 17 19)
      (lit 1) (lit 0) in
  let speed :=
    divQ (trip_distance m)
         (divQ (trip_duration_minutes m) (to_double (lit 60))) in
  mkFeatures m weekend rush speed.

Definition ml_df (df : list TableRow) : list Features :=
  map add_features (filter ml_condition (map select df)).

(** The modeling subset in the words of the specification. *)
Definition ml_spec (m : Selected) : Prop :=
  exists f x t,
    fare_amount m = Some f /\ (0 < f)%Q /\ (f < 100)%Q /\
    trip_distance m = Some x /\ (0 < x)%Q /\ (x < 50)%Q /\
    trip_duration_minutes m = Some t /\ (1 < t)%Q /\ (t < 120)%Q.

(** The same on a row of the table: its fare, distance and duration
    columns lie strictly within the three ranges. *)
Definition ml_table_spec (e : TableRow) : Prop :=
  exists f x t,
    Ingestion.fare_amount (Ingestion.trip e) = Some f /\
    (0 < f)%Q /\ (f < 100)%Q /\
    Ingestion.trip_distance (Ingestion.trip e) = Some x /\
    (0 < x)%Q /\ (x < 50)%Q /\
    Ingestion.trip_duration_minutes e = Some t /\
    (1 < t)%Q /\ (t < 120)%Q.

(** What a row [x] of the modeling subset holds of the table row [e] it
    comes from: the eight selected columns of [e] as they are, and the two
    flags, each 1 or 0, set from the day of week and the hour of [e]. *)
Definition features_of_row (e : TableRow) (x : Features) : Prop :=
  trip_distance (selected x) = Ingestion.trip_distance (Ingestion.trip e) /\
  passenger_count (selected x)
  = Ingestion.passenger_count (Ingestion.trip e) /\
  pickup_hour (selected x) = Ingestion.pickup_hour e /\
  pickup_day_of_week (selected x) = Ingestion.pickup_day_of_week e /\
  trip_duration_minutes (selected x) = Ingestion.trip_duration_minutes e /\
  PULocationID (selected x) = Ingestion.PULocationID (Ingestion.trip e) /\
  DOLocationID (selected x) = Ingestion.DOLocationID (Ingestion.trip e) /\
  fare_amount (selected x) = Ingestion.fare_amount (Ingestion.trip e) /\
  (is_weekend x = Some 1 \/ is_weekend x = Some 0) /\
  (is_weekend x = Some 1 <->
   Ingestion.pickup_day_of_week e = Some 1 \/
   Ingestion.pickup_day_of_week e = Some 7) /\
  (is_rush_hour x = Some 1 \/ is_rush_hour x = Some 0) /\
  (is_rush_hour x = Some 1 <->
   exists h, Ingestion.pickup_hour e = Some h /\
             (7 <= h <= 9 \/ 17 <= h <= 19)).

(** *** Model comparison *)

Inductive Model : Type := lr_model | rf_model.

(** [if rf_rmse < rmse: best_model = rf_model else: best_model = lr_model]. *)
Definition best_model (rmse rf_rmse : Q) : Model :=
  if Qltb rf_rmse rmse then rf_model else lr_model.

(** The guard of the feature-importance cell: [if rf_rmse < rmse:]. *)
Definition reports_feature_importance (rmse rf_rmse : Q) : bool :=
  Qltb rf_rmse rmse.

Definition rmse_of (rmse rf_rmse : Q) (m : Model) : Q :=
  match m with
  | lr_model => rmse
  | rf_model => rf_rmse
  end.

(** *** Revenue by hour *)

Record Revenue : Type := mkRevenue {
  revenue_hour : cell Z;
  avg_fare : cell Q;
  trip_count : Z;
  total_revenue : cell Q
}.

(** The three aggregates of one group. *)
Definition aggregate (g : cell Z * list TableRow) : Revenue :=
  let fares := map (fun e => Ingestion.fare_amount (Ingestion.trip e)) (snd g) in
  {| revenue_hour := fst g;
     avg_fare := avg fares;
     trip_count := count (snd g);
     total_revenue := mulQ (avg fares) (to_double (lit (count (snd g)))) |}.

Definition hourly_revenue (df : list TableRow) : list Revenue :=
  orderBy (fun a b => desc (total_revenue a) (total_revenue b))
          (map aggregate (groupBy Ingestion.pickup_hour df)).

(** [hourly_revenue.show(5)]. *)
Definition top_revenue_hours (df : list TableRow) : list Revenue :=
  show 5 (hourly_revenue df).

(** The row of an hour in the words of the specification: the trips of the
    hour are counted, their fares averaged, and the revenue is the mean
    fare times the count. *)
Definition revenue_of_hour (df : list TableRow) (row : Revenue) : Prop :=
  let trips := group Ingestion.pickup_hour df (revenue_hour row) in
  trips <> [] /\
  trip_count row = count trips /\
  avg_fare row
  = avg (map (fun e => Ingestion.fare_amount (Ingestion.trip e)) trips) /\
  total_revenue row
  = mulQ (avg_fare row) (Some (inject_Z (trip_count row))).

(** "The earlier row's total revenue is strictly greater than the later
    row's", for every pair of adjacent rows. *)
Definition strictly_greater (a b : Revenue) : Prop :=
  exists x y, total_revenue a = Some x /\ total_revenue b = Some y /\ (y < x)%Q.

(** The same with "greater than or equal"; a NULL revenue is below every
    number. *)
Definition greater_or_equal (a b : Revenue) : Prop :=
  match total_revenue a, total_revenue b with
  | Some x, Some y => (y <= x)%Q
  | Some _, None => True
  | None, Some _ => False
  | None, None => True
  end.

(** [adjacent R l]: [R] relates every row of [l] to the row after it. *)
Fixpoint adjacent {A : Type} (R : A -> A -> Prop) (l : list A) : Prop :=
  match l with
  | a :: ((b :: _) as t) => R a b /\ adjacent R t
  | _ => True
  end.

End Analysis.

(** ** Sample trips *)

Module Samples.
Import Spark Ingestion.

(** A trip with the given timestamps (in microseconds), passengers,
    distance and fare. *)
Definition trip_of (pickup dropoff : cell timestamp) (passengers : cell Z)
    (distance fare : cell Q) : Row :=
  {| VendorID := Some 1;
     tpep_pickup_datetime := pickup;
     tpep_dropoff_datetime := dropoff;
     passenger_count := passengers;
     trip_distance := distance;
     RatecodeID := Some 1;
     store_and_fwd_flag := Some "N"%string;
     PULocationID := Some 161;
     DOLocationID := Some 237;
     payment_type := Some 1;
     fare_amount := fare;
     extra := Some 0%Q;
     mta_tax := Some (1 # 2)%Q;
     tip_amount := Some 2%Q;
     tolls_amount := Some 0%Q;
     improvement_surcharge := Some 1%Q;
     total_amount := None;
     congestion_surcharge := Some (5 # 2)%Q |}.

(** 2023-01-01T08:00:00Z, a Sunday. *)
Definition sunday_8am : timestamp := 1672560000 * 1000000.

(** The example of the specification: 08:00 to 08:15, 3 miles, fare 12,
    2 passengers. *)
Definition sunday_trip : Row :=
  trip_of (Some sunday_8am) (Some (sunday_8am + 900 * 1000000)) (Some 2)
          (Some 3%Q) (Some 12%Q).

Definition nine_passengers : Row :=
  trip_of (Some sunday_8am) (Some (sunday_8am + 900 * 1000000)) (Some 9)
          (Some 3%Q) (Some 12%Q).

Definition fare_600 : Row :=
  trip_of (Some sunday_8am) (Some (sunday_8am + 900 * 1000000)) (Some 2)
          (Some 3%Q) (Some 600%Q).

(** Dropoff before pickup. *)
Definition backwards_trip : Row :=
  trip_of (Some (sunday_8am + 900 * 1000000)) (Some sunday_8am) (Some 2)
          (Some 3%Q) (Some 12%Q).

(** Pickup and dropoff within the same second, 0.8 s apart. *)
Definition subsecond_trip : Row :=
  trip_of (Some (sunday_8am + 100000)) (Some (sunday_8am + 900000)) (Some 1)
          (Some (1 # 10)%Q) (Some 3%Q).

Definition no_pickup_time : Row :=
  trip_of None (Some sunday_8am) (Some 1) (Some 1%Q) (Some 5%Q).

(** The same trip an hour later, 09:00 to 09:15. *)
Definition sunday_9am_trip : Row :=
  trip_of (Some (sunday_8am + 3600 * 1000000))
          (Some (sunday_8am + 4500 * 1000000)) (Some 2)
          (Some 3%Q) (Some 12%Q).

(** A table of two trips in two different hours, with the same fare. *)
Definition tie_table : list Analysis.TableRow :=
  [enhance Spark.UTC sunday_trip; enhance Spark.UTC sunday_9am_trip].

End Samples.

(** ** Python values that may raise *)

Module Python.

Inductive exn : Type :=
| ZeroDivisionError
| NameError (name : string)
| ExternalError (call : string).

Inductive result (A : Type) : Type :=
| Returns (a : A)
| Raises (e : exn).
Arguments Returns {A} a.
Arguments Raises {A} e.

(** [a / b] on two [int]s. *)
Definition true_div (a b : Z) : result Q :=
  if b =? 0 then Raises ZeroDivisionError
  else Returns (inject_Z a / inject_Z b)%Q.

Definition raised {A : Type} (r : result A) : bool :=
  match r with
  | Returns _ => false
  | Raises _ => true
  end.

End Python.

(** ** Credentials and storage mount *)

Module Storage.
Import Python.

Definition STORAGE_ACCOUNT_NAME : string := "workshopstorageaccount".
Definition CONTAINER_NAME : string := "raw-data".
Definition MOUNT_POINT : string := "/mnt/workshop-data".
Definition SECRET_SCOPE : string := "workshop-keyvault-scope".

(** The workspace as the setup cells see it: what [dbutils.secrets.get]
    returns ([None] when it raises), the paths that [dbutils.fs.ls] lists,
    and the (source, mount point, key) triples that [dbutils.fs.mount]
    accepts.  A mount that succeeds makes its mount point listable. *)
Record Workspace : Type := mkWorkspace {
  secrets : string -> string -> option string;
  listable : string -> bool;
  accepts : string -> string -> string -> bool
}.

(** What the cells print. *)
Inductive event : Type :=
| RetrievedCredentials
| ErrorRetrievingCredentials
| UsingAlternativeAuthentication
| Mounted
| ErrorMounting (e : exn)
| AlreadyMounted
| DisplayedContents.

(** The first cell: [storage_account_key] is bound when the secret is
    there, and left as it was (unbound in a fresh session) otherwise. *)
Definition credentials_cell (w : Workspace) (storage_account_key : option string)
    : option string * list event :=
  match secrets w SECRET_SCOPE "storage-account-key" with
  | Some k => (Some k, [RetrievedCredentials])
  | None => (storage_account_key,
             [ErrorRetrievingCredentials; UsingAlternativeAuthentication])
  end.

(** [is_mounted]: whether [dbutils.fs.ls(mount_point)] returns. *)
Definition is_mounted (w : Workspace) (mount_point : string) : bool :=
  if listable w mount_point then true else false.

Definition source : string :=
  "abfss://" ++ CONTAINER_NAME ++ "@" ++ STORAGE_ACCOUNT_NAME
  ++ ".dfs.core.windows.net/".

Definition dbutils_fs_mount (w : Workspace) (src mount_point key : string)
    : result Workspace :=
  if accepts w src mount_point key then
    Returns {| secrets := secrets w;
               listable := fun p => if String.eqb p mount_point then true
                                    else listable w p;
               accepts := accepts w |}
  else Raises (ExternalError "dbutils.fs.mount").

(** The mount cell: mount unless already mounted, any exception of the
    attempt caught and printed; then an unguarded listing of the mount
    point. *)
Definition mount_cell (w : Workspace) (storage_account_key : option string)
    : Workspace * list event * result unit :=
  let attempt :=
    if negb (is_mounted w MOUNT_POINT) then
      match
        match storage_account_key with
        | None => Raises (NameError "storage_account_key")
        | Some k => dbutils_fs_mount w source MOUNT_POINT k
        end
      with
      | Returns w' => (w', [Mounted])
      | Raises e => (w, [ErrorMounting e])
      end
    else (w, [AlreadyMounted]) in
  if listable (fst attempt) MOUNT_POINT then
    (fst attempt, snd attempt ++ [DisplayedContents], Returns tt)
  else (fst attempt, snd attempt, Raises (ExternalError "dbutils.fs.ls")).

(** The two cells in a fresh session. *)
Definition setup (w : Workspace) : Workspace * list event * result unit :=
  let cred := credentials_cell w None in
  let m := mount_cell w (fst cred) in
  (fst (fst m), snd cred ++ snd (fst m), snd m).

End Storage.

(** ** The cleaning report *)

Module Report.
Import Spark Python Ingestion.

(** The four lines printed after cleaning. *)
Record CleaningReport : Type := mkCleaningReport {
  original_records : Z;
  cleaned_records : Z;
  records_removed : Z;
  data_quality : result Q
}.

Definition cleaning_report (df_raw : list Row) : CleaningReport :=
  {| original_records := count df_raw;
     cleaned_records := count (df_cleaned df_raw);
     records_removed := count df_raw - count (df_cleaned df_raw);
     data_quality :=
       match true_div (count (df_cleaned df_raw)) (count df_raw) with
       | Returns q => Returns (q * 100)%Q
       | Raises e => Raises e
       end |}.

End Report.

(** ** Exploratory aggregates of the analysis notebook *)

Module Exploration.
Import Spark Python.
Import Analysis (TableRow).

Definition fare (e : TableRow) : cell Q :=
  Ingestion.fare_amount (Ingestion.trip e).

Definition distance (e : TableRow) : cell Q :=
  Ingestion.trip_distance (Ingestion.trip e).

(** Ascending order of a key column: NULL first. *)
Definition asc (a b : cell Z) : bool :=
  match a, b with
  | None, _ => true
  | Some _, None => false
  | Some x, Some y => x <=? y
  end.

(** Descending order of a count. *)
Definition desc_count (a b : Z) : bool := b <=? a.

(** *** The period covered by the data *)

(** [min(c)] and [max(c)] as aggregates: taken over the non-null cells,
    NULL when there is none. *)
Definition min_agg (cs : list (cell Z)) : cell Z :=
  match non_null cs with
  | [] => None
  | x :: xs => Some (fold_right Z.min x xs)
  end.

Definition max_agg (cs : list (cell Z)) : cell Z :=
  match non_null cs with
  | [] => None
  | x :: xs => Some (fold_right Z.max x xs)
  end.

Definition pickup (e : TableRow) : cell timestamp :=
  Ingestion.tpep_pickup_datetime (Ingestion.trip e).

(** The two values printed after "Data covers period". *)
Definition data_period (df : list TableRow) : cell timestamp * cell timestamp :=
  (min_agg (map pickup df), max_agg (map pickup df)).

(** *** Trip patterns by hour *)

Record HourlyTrips : Type := mkHourlyTrips {
  ht_pickup_hour : cell Z;
  ht_trip_count : Z;
  ht_avg_fare : cell Q;
  ht_avg_distance : cell Q;
  ht_avg_duration : cell Q
}.

Definition aggregate_hour (g : cell Z * list TableRow) : HourlyTrips :=
  {| ht_pickup_hour := fst g;
     ht_trip_count := count (snd g);
     ht_avg_fare := avg (map fare (snd g));
     ht_avg_distance := avg (map distance (snd g));
     ht_avg_duration := avg (map Ingestion.trip_duration_minutes (snd g)) |}.

Definition hourly_trips (df : list TableRow) : list HourlyTrips :=
  orderBy (fun a b => asc (ht_pickup_hour a) (ht_pickup_hour b))
          (map aggregate_hour (groupBy Ingestion.pickup_hour df)).

(** *** Trip patterns by day of week *)

(** The chain of [when] without [otherwise]: NULL when no branch applies. *)
Definition day_name_of (d : cell Z) : cell string :=
  when_otherwise (eqZ d (lit 1)) (lit "Sunday"%string)
  (when_otherwise (eqZ d (lit 2)) (lit "Monday"%string)
  (when_otherwise (eqZ d (lit 3)) (lit "Tuesday"%string)
  (when_otherwise (eqZ d (lit 4)) (lit "Wednesday"%string)
  (when_otherwise (eqZ d (lit 5)) (lit "Thursday"%string)
  (when_otherwise (eqZ d (lit 6)) (lit "Friday"%string)
  (when_otherwise (eqZ d (lit 7)) (lit "Saturday"%string) None)))))).

(** The names of the days numbered 1 to 7. *)
Definition week : list string :=
  ["Sunday"; "Monday"; "Tuesday"; "Wednesday"; "Thursday"; "Friday";
   "Saturday"]%string.

Record DowTrips : Type := mkDowTrips {
  dt_pickup_day_of_week : cell Z;
  dt_trip_count : Z;
  dt_avg_fare : cell Q;
  dt_avg_distance : cell Q;
  day_name : cell string
}.

Definition aggregate_dow (g : cell Z * list TableRow) : DowTrips :=
  {| dt_pickup_day_of_week := fst g;
     dt_trip_count := count (snd g);
     dt_avg_fare := avg (map fare (snd g));
     dt_avg_distance := avg (map distance (snd g));
     day_name := day_name_of (fst g) |}.

Definition dow_trips (df : list TableRow) : list DowTrips :=
  orderBy (fun a b => asc (dt_pickup_day_of_week a) (dt_pickup_day_of_week b))
          (map aggregate_dow (groupBy Ingestion.pickup_day_of_week df)).

(** *** Sampling for the plots *)

Definition sample_size : Z := 10000.

(** [fraction=sample_size/df.count()]. *)
Definition sample_fraction (df : list TableRow) : result Q :=
  true_div sample_size (count df).

(** *** Peak demand *)

(** [df.groupBy("pickup_hour").count()]: the hour and its number of trips. *)
Definition hour_counts (df : list TableRow) : list (cell Z * Z) :=
  map (fun g => (fst g, count (snd g))) (groupBy Ingestion.pickup_hour df).

(** [....orderBy(desc("count"))]. *)
Definition ranked_hours (df : list TableRow) : list (cell Z * Z) :=
  orderBy (fun a b => desc_count (snd a) (snd b)) (hour_counts df).

(** [....take(3)]. *)
Definition peak_hours (df : list TableRow) : list (cell Z * Z) :=
  firstn 3 (ranked_hours df).

Definition sumZ (xs : list Z) : Z := fold_right Z.add 0 xs.

(** Strict ascending order of two keys, NULL below every number. *)
Definition strictly_before (a b : cell Z) : Prop :=
  match a, b with
  | None, Some _ => True
  | Some x, Some y => x < y
  | _, None => False
  end.

End Exploration.

(** * Properties *)

(** ** Three-valued conditions *)

Section ThreeValued.
Import Spark.

Lemma holds_and3 (a b : cell bool) :
  holds (a &&& b) = holds a && holds b.
Proof. destruct a as [[|]|], b as [[|]|]; reflexivity. Qed.

Lemma holds_or3 (a b : cell bool) :
  holds (a ||| b) = holds a || holds b.
Proof. destruct a as [[|]|], b as [[|]|]; reflexivity. Qed.

Lemma holds_lift2 {A B : Type} (f : A -> B -> bool) (a : cell A) (b : cell B) :
  holds (lift2 f a b) = true <->
  exists x y, a = Some x /\ b = Some y /\ f x y = true.
Proof.
  destruct a as [x|], b as [y|]; simpl; split;
    try discriminate; try (intros (x' & y' & Hx & Hy & _); discriminate).
  - intros H. exists x, y. destruct (f x y); [auto | discriminate].
  - intros (x' & y' & Hx & Hy & H). injection Hx as ->. injection Hy as ->.
    rewrite H. reflexivity.
Qed.

Lemma holds_isNotNull {A : Type} (c : cell A) :
  holds (isNotNull c) = true <-> exists x, c = Some x.
Proof.
  destruct c as [x|]; simpl; split; try discriminate.
  - intros _. now exists x.
  - reflexivity.
  - intros (x & H). discriminate.
Qed.

Lemma holds_isNull {A : Type} (c : cell A) :
  holds (isNull c) = true <-> c = None.
Proof. destruct c; simpl; split; congruence. Qed.

Lemma Qltb_lt (x y : Q) : Qltb x y = true <-> (x < y)%Q.
Proof.
  unfold Qltb. rewrite negb_true_iff. split.
  - intros H. apply Qnot_le_lt. intros Hle.
    apply Qle_bool_iff in Hle. congruence.
  - intros H. destruct (Qle_bool y x) eqn:E; [|reflexivity].
    apply Qle_bool_iff in E. exfalso. exact (Qlt_not_le _ _ H E).
Qed.

Lemma Qltb_ge (x y : Q) : Qltb x y = false <-> (y <= x)%Q.
Proof.
  unfold Qltb. rewrite negb_false_iff. apply Qle_bool_iff.
Qed.

Lemma holds_filter_In {R : Type} (cond : R -> cell bool) (df : list R) (r : R) :
  In r (filter cond df) <-> In r df /\ holds (cond r) = true.
Proof. unfold filter. apply filter_In. Qed.

Lemma count_nonneg {R : Type} (df : list R) : 0 <= count df.
Proof. unfold count. lia. Qed.

Lemma count_filter_le {R : Type} (cond : R -> cell bool) (df : list R) :
  count (filter cond df) <= count df.
Proof.
  unfold count, filter. apply Nat2Z.inj_le, filter_length_le.
Qed.
End ThreeValued.

Section SubsequenceFacts.
Context {A : Type}.

Lemma subseq_filter (f : A -> bool) (l : list A) :
  subseq (List.filter f l) l.
Proof.
  induction l as [|a l IH]; simpl.
  - constructor.
  - destruct (f a); constructor; exact IH.
Qed.

Lemma subseq_In (s l : list A) (x : A) : subseq s l -> In x s -> In x l.
Proof.
  induction 1 as [|y s l _ IH|y s l _ IH]; simpl; intuition.
Qed.
End SubsequenceFacts.

(** ** The cleaning stage *)

Section Cleaning.
Import Spark Ingestion.

Lemma clean_condition_spec (r : Row) :
  holds (clean_condition r) = true <-> clean_spec r.
Proof.
  unfold clean_condition, clean_spec, elapsed_seconds, gtZ, leZ, geZ, gtQ,
    geQ, leQ, subZ, cast_long, lit.
  rewrite !holds_and3, !andb_true_iff, !holds_isNotNull, !holds_lift2.
  split.
  - intros [[[[[[[[(p & Hp) (d & Hd)] Hgt] Hel] Hn1] Hn8] Hx] Hf0] Hf500].
    destruct Hgt as (d' & p' & Hd' & Hp' & Hgt).
    destruct Hel as (e & c & He & Hc & Hel).
    destruct Hn1 as (n & c1 & Hn & Hc1 & Hn1).
    destruct Hn8 as (n' & c8 & Hn' & Hc8 & Hn8).
    destruct Hx as (x & z & Hx & Hz & Hx0).
    destruct Hf0 as (f & z0 & Hf & Hz0 & Hf0).
    destruct Hf500 as (f' & z5 & Hf' & Hz5 & Hf500).
    rewrite Hp, Hd in *. simpl in He.
    injection Hd' as <-. injection Hp' as <-. injection He as <-.
    injection Hc as <-. injection Hc1 as <-. injection Hc8 as <-.
    injection Hz as <-. injection Hz0 as <-. injection Hz5 as <-.
    rewrite Hn in Hn'. injection Hn' as <-.
    rewrite Hf in Hf'. injection Hf' as <-.
    exists p, d, n, x, f.
    apply Qltb_lt in Hx0. apply Qle_bool_iff in Hf0, Hf500.
    repeat split; auto; lia.
  - intros (p & d & n & x & f & Hp & Hd & Hpd & Hel & Hn & Hn18 & Hx & Hx0
            & Hf & Hf0 & Hf500).
    rewrite Hp, Hd, Hn, Hx, Hf. simpl.
    repeat split; eauto.
    + exists d, p. repeat split. lia.
    + do 2 eexists. repeat split. lia.
    + do 2 eexists. repeat split. lia.
    + do 2 eexists. repeat split. lia.
    + do 2 eexists. repeat split. now apply Qltb_lt.
    + do 2 eexists. repeat split. now apply Qle_bool_iff.
    + do 2 eexists. repeat split. now apply Qle_bool_iff.
Qed.
End Cleaning.

Section KeepsFacts.
Context {A : Type}.

Lemma keeps_filter (P : A -> Prop) (f : A -> bool) (l : list A) :
  (forall x, f x = true <-> P x) -> keeps P l (List.filter f l).
Proof.
  intros Hf. induction l as [|a l IH]; simpl.
  - constructor.
  - destruct (f a) eqn:E.
    + apply keeps_yes; [now apply Hf | exact IH].
    + apply keeps_no; [|exact IH].
      intros HP. apply Hf in HP. congruence.
Qed.

Lemma keeps_In (P : A -> Prop) (l s : list A) (x : A) :
  keeps P l s -> (In x s <-> In x l /\ P x).
Proof.
  induction 1 as [|y l s Hy _ IH|y l s Hy _ IH]; simpl.
  - tauto.
  - split.
    + intros [->|H]; [tauto | apply IH in H; tauto].
    + intros [[->|H] HP]; [now left | right; apply IH; tauto].
  - split.
    + intros H. apply IH in H. tauto.
    + intros [[->|H] HP]; [contradiction | apply IH; tauto].
Qed.

Lemma keeps_subseq (P : A -> Prop) (l s : list A) :
  keeps P l s -> subseq s l.
Proof. induction 1; constructor; assumption. Qed.

Lemma keeps_fixed (P : A -> Prop) (l : list A) :
  Forall P l -> keeps P l l.
Proof. induction 1; constructor; assumption. Qed.

Lemma filter_tally (P : A -> Prop) (cond : A -> Spark.cell bool) (df : list A) :
  (forall x, Spark.holds (cond x) = true <-> P x) ->
  tally P df (Spark.count (Spark.filter cond df)).
Proof.
  intros H. exists (Spark.filter cond df). split; [|reflexivity].
  unfold Spark.filter. now apply keeps_filter.
Qed.
End KeepsFacts.

Section CleaningTheorems.
Import Spark Ingestion.

(** C1. The cleaned dataset is the raw dataset without the rows that fail
    one of the cleaning predicates (timestamps non-null, dropoff after
    pickup, at most 86400 elapsed seconds, 1 to 8 passengers, positive
    distance, fare within 0 and 500): a row is in the output iff it is in
    the input and satisfies them all, the output is a subsequence of the
    input, and a row whose dropoff is not after its pickup is never in
    it. *)
Theorem df_cleaned_exact (df_raw : list Row) :
  keeps clean_spec df_raw (df_cleaned df_raw) /\
  (forall r, In r (df_cleaned df_raw) <-> In r df_raw /\ clean_spec r) /\
  subseq (df_cleaned df_raw) df_raw /\
  (forall r p d,
      tpep_pickup_datetime r = Some p -> tpep_dropoff_datetime r = Some d ->
      d <= p -> ~ In r (df_cleaned df_raw)).
Proof.
  assert (K : keeps clean_spec df_raw (df_cleaned df_raw)).
  { unfold df_cleaned, filter. apply keeps_filter.
    intros r. apply clean_condition_spec. }
  split; [exact K|]. split; [|split].
  - intros r. now apply keeps_In.
  - now apply keeps_subseq with (P := clean_spec).
  - intros r p d Hp Hd Hle Hin.
    apply (keeps_In _ _ _ r K) in Hin. destruct Hin as [_ Hs].
    destruct Hs as (p' & d' & n & x & f & Hp' & Hd' & Hlt & _).
    rewrite Hp in Hp'. rewrite Hd in Hd'.
    injection Hp' as <-. injection Hd' as <-. lia.
Qed.

(** C6. Cleaning is idempotent: cleaning the cleaned dataset returns it
    unchanged, since each of its rows satisfies all cleaning predicates. *)
Theorem df_cleaned_idempotent (df_raw : list Row) :
  df_cleaned (df_cleaned df_raw) = df_cleaned df_raw /\
  Forall clean_spec (df_cleaned df_raw).
Proof.
  split.
  - unfold df_cleaned, filter.
    induction df_raw as [|r l IH]; simpl; [reflexivity|].
    destruct (holds (clean_condition r)) eqn:E; simpl.
    + rewrite E, IH. reflexivity.
    + exact IH.
  - apply Forall_forall. intros r Hr.
    apply holds_filter_In in Hr. now apply clean_condition_spec.
Qed.
End CleaningTheorems.

Section WholeSeconds.
Import Spark Ingestion.

(** On timestamps without a fraction of a second, as the CSV format
    [yyyy-MM-dd HH:mm:ss] yields them, the elapsed seconds are the plain
    difference of the two instants. *)
Lemma elapsed_seconds_whole (r : Row) (p d : Z) :
  tpep_pickup_datetime r = Some (p * MICROS_PER_SECOND) ->
  tpep_dropoff_datetime r = Some (d * MICROS_PER_SECOND) ->
  elapsed_seconds r = Some (d - p).
Proof.
  intros Hp Hd. unfold elapsed_seconds, cast_long, subZ, lift2.
  rewrite Hp, Hd. cbn [option_map].
  rewrite !Z.div_mul by (unfold MICROS_PER_SECOND; lia). reflexivity.
Qed.
End WholeSeconds.

Section CleaningExamples.
Import Spark Ingestion Samples.

Example df_cleaned_sample :
  df_cleaned [sunday_trip; backwards_trip; nine_passengers; subsecond_trip;
              no_pickup_time; fare_600; sunday_trip]
  = [sunday_trip; subsecond_trip; sunday_trip].
Proof. reflexivity. Qed.
End CleaningExamples.

(** ** The quality checks *)

Section QualityChecks.
Import Spark Ingestion.

Lemma null_times_condition_spec (r : Row) :
  holds (null_times_condition r) = true <-> null_times_spec r.
Proof.
  unfold null_times_condition, null_times_spec.
  rewrite holds_or3, orb_true_iff, !holds_isNull. tauto.
Qed.

Lemma invalid_duration_condition_spec (r : Row) :
  holds (invalid_duration_condition r) = true <-> invalid_duration_spec r.
Proof.
  unfold invalid_duration_condition, invalid_duration_spec, elapsed_seconds,
    leZ, gtZ, subZ, cast_long, lit.
  rewrite holds_or3, orb_true_iff, !holds_lift2.
  destruct (tpep_pickup_datetime r) as [p|], (tpep_dropoff_datetime r) as [d|];
    simpl; split.
  - intros [(d' & p' & Hd & Hp & H) | (e & c & He & Hc & H)].
    + injection Hd as <-. injection Hp as <-.
      exists p, d. repeat split. left. lia.
    + injection He as <-. injection Hc as <-.
      exists p, d. repeat split. right. lia.
  - intros (p' & d' & Hp & Hd & H).
    injection Hp as <-. injection Hd as <-. destruct H as [H|H].
    + left. exists d, p. repeat split. lia.
    + right. do 2 eexists. repeat split. lia.
  - intros [(d' & p' & Hd & Hp & H) | (e & c & He & Hc & H)]; discriminate.
  - intros (p' & d' & Hp & Hd & H). discriminate.
  - intros [(d' & p' & Hd & Hp & H) | (e & c & He & Hc & H)]; discriminate.
  - intros (p' & d' & Hp & Hd & H). discriminate.
  - intros [(d' & p' & Hd & Hp & H) | (e & c & He & Hc & H)]; discriminate.
  - intros (p' & d' & Hp & Hd & H). discriminate.
Qed.

Lemma invalid_passenger_count_condition_spec (r : Row) :
  holds (invalid_passenger_count_condition r) = true <->
  invalid_passenger_count_spec r.
Proof.
  unfold invalid_passenger_count_condition, invalid_passenger_count_spec,
    ltZ, gtZ, lit.
  rewrite holds_or3, orb_true_iff, !holds_lift2. split.
  - intros [(n & c & Hn & Hc & H) | (n & c & Hn & Hc & H)];
      injection Hc as <-; exists n; split; auto; lia.
  - intros (n & Hn & [H|H]); [left | right];
      exists n; eexists; repeat split; auto; lia.
Qed.

Lemma negative_distance_condition_spec (r : Row) :
  holds (negative_distance_condition r) = true <-> negative_distance_spec r.
Proof.
  unfold negative_distance_condition, negative_distance_spec, leQ, lit.
  rewrite holds_lift2. split.
  - intros (x & z & Hx & Hz & H). injection Hz as <-.
    exists x. split; auto. now apply Qle_bool_iff.
  - intros (x & Hx & H). exists x, 0%Q. repeat split; auto.
    now apply Qle_bool_iff.
Qed.

Lemma invalid_fare_condition_spec (r : Row) :
  holds (invalid_fare_condition r) = true <-> invalid_fare_spec r.
Proof.
  unfold invalid_fare_condition, invalid_fare_spec, ltQ, gtQ, lit.
  rewrite holds_or3, orb_true_iff, !holds_lift2. split.
  - intros [(f & c & Hf & Hc & H) | (f & c & Hf & Hc & H)];
      injection Hc as <-; exists f; split; auto;
      apply Qltb_lt in H; auto.
  - intros (f & Hf & [H|H]); [left | right];
      exists f; eexists; repeat split; auto; now apply Qltb_lt.
Qed.

Lemma below_fraction_spec (issues total : Z) (ratio : Q) :
  below_fraction issues total ratio = true <->
  (inject_Z issues < inject_Z total * ratio)%Q.
Proof. unfold below_fraction. apply Qltb_lt. Qed.

(** With the two ratios of the notebook, the comparison is one of integers. *)
Lemma below_one_percent (issues total : Z) :
  below_fraction issues total (1 # 100) = true <-> 100 * issues < total.
Proof.
  rewrite below_fraction_spec. unfold Qlt, Qmult, inject_Z.
  cbn [Qnum Qden]. lia.
Qed.

Lemma below_five_percent (issues total : Z) :
  below_fraction issues total (5 # 100) = true <-> 20 * issues < total.
Proof.
  rewrite below_fraction_spec. unfold Qlt, Qmult, inject_Z.
  cbn [Qnum Qden]. lia.
Qed.

Lemma check_ok_intro (name : string) (cond : Row -> cell bool)
    (violation : Row -> Prop) (pass : Z -> Prop) (b : Z -> bool)
    (df : list Row) :
  (forall r, holds (cond r) = true <-> violation r) ->
  (forall n, b n = true <-> pass n) ->
  check_ok (name, count (filter cond df), b (count (filter cond df)))
           name violation pass df.
Proof.
  intros Hc Hb. exists (count (filter cond df)), (b (count (filter cond df))).
  split; [reflexivity|]. split; [now apply filter_tally|].
  split; [apply Hb|].
  split; [apply count_nonneg | apply count_filter_le].
Qed.

(** C2. On a dataset of N rows the evaluator returns five results, in this
    order: null pickup or dropoff time, passing iff the count is 0; invalid
    duration (dropoff not after pickup, or more than 86400 elapsed
    seconds), passing iff the count is below 0.01 N; passenger count below
    1 or above 10, passing iff below 0.05 N; distance at most 0, passing
    iff below 0.01 N; fare below 0 or above 1000, passing iff below
    0.01 N.  Each count is the number of rows in violation and lies
    between 0 and N, and the cell that runs the evaluator leaves the raw
    dataset as it was. *)
Theorem run_data_quality_checks_spec (df : list Row) :
  (exists c1 c2 c3 c4 c5,
    run_data_quality_checks df = [c1; c2; c3; c4; c5] /\
    check_ok c1 "Null pickup/dropoff times" null_times_spec
             (fun n => n = 0) df /\
    check_ok c2 "Invalid trip duration" invalid_duration_spec
             (fun n => (inject_Z n < inject_Z (count df) * (1 # 100))%Q) df /\
    check_ok c3 "Invalid passenger count" invalid_passenger_count_spec
             (fun n => (inject_Z n < inject_Z (count df) * (5 # 100))%Q) df /\
    check_ok c4 "Negative trip distance" negative_distance_spec
             (fun n => (inject_Z n < inject_Z (count df) * (1 # 100))%Q) df /\
    check_ok c5 "Invalid fare amount" invalid_fare_spec
             (fun n => (inject_Z n < inject_Z (count df) * (1 # 100))%Q) df) /\
  (forall checks,
      nb_df_raw (quality_check_cell (mkNotebook df checks)) = df /\
      nb_quality_checks (quality_check_cell (mkNotebook df checks))
      = run_data_quality_checks df).
Proof.
  split.
  - do 5 eexists. split; [reflexivity|].
    split; [|split; [|split; [|split]]].
    + apply (check_ok_intro _ _ _ _ (fun n => n =? 0)).
      * apply null_times_condition_spec.
      * intros n. apply Z.eqb_eq.
    + apply (check_ok_intro _ _ _ _
               (fun n => below_fraction n (count df) (1 # 100))).
      * apply invalid_duration_condition_spec.
      * intros n. apply below_fraction_spec.
    + apply (check_ok_intro _ _ _ _
               (fun n => below_fraction n (count df) (5 # 100))).
      * apply invalid_passenger_count_condition_spec.
      * intros n. apply below_fraction_spec.
    + apply (check_ok_intro _ _ _ _
               (fun n => below_fraction n (count df) (1 # 100))).
      * apply negative_distance_condition_spec.
      * intros n. apply below_fraction_spec.
    + apply (check_ok_intro _ _ _ _
               (fun n => below_fraction n (count df) (1 # 100))).
      * apply invalid_fare_condition_spec.
      * intros n. apply below_fraction_spec.
  - intros checks. split; reflexivity.
Qed.
End QualityChecks.

Section QualityCheckExamples.
Import Spark Ingestion Samples.

Example run_data_quality_checks_sample :
  run_data_quality_checks
    [sunday_trip; backwards_trip; nine_passengers; no_pickup_time]
  = [("Null pickup/dropoff times"%string, 1, false);
     ("Invalid trip duration"%string, 1, false);
     ("Invalid passenger count"%string, 0, true);
     ("Negative trip distance"%string, 0, true);
     ("Invalid fare amount"%string, 0, true)].
Proof. reflexivity. Qed.
End QualityCheckExamples.

(** ** Check bounds against cleaning bounds *)

Section Bounds.
Import Spark Ingestion Samples.

Lemma flagged_false (r : Row) :
  flagged r = false <->
  ~ null_times_spec r /\ ~ invalid_duration_spec r /\
  ~ invalid_passenger_count_spec r /\ ~ negative_distance_spec r /\
  ~ invalid_fare_spec r.
Proof.
  unfold flagged. rewrite !orb_false_iff.
  rewrite <- null_times_condition_spec, <- invalid_duration_condition_spec,
    <- invalid_passenger_count_condition_spec,
    <- negative_distance_condition_spec, <- invalid_fare_condition_spec.
  rewrite !not_true_iff_false. tauto.
Qed.

(** C3. The checks and the cleaning filter use different bounds.  Check 3
    counts a passenger count below 1 or above 10 and check 5 a fare below
    0 or above 1000, while a row passes cleaning only with 1 to 8
    passengers and a fare from 0 to 500.  So a trip with 9 passengers, and
    one with a fare of 600, is counted by none of the five checks and is
    removed by cleaning. *)
Theorem check_bounds_wider_than_cleaning_bounds :
  (forall r,
      (holds (invalid_passenger_count_condition r) = true <->
       exists n, passenger_count r = Some n /\ (n < 1 \/ n > 10)) /\
      (holds (invalid_fare_condition r) = true <->
       exists f, fare_amount r = Some f /\ (f < 0 \/ 1000 < f)%Q) /\
      (holds (clean_condition r) = true ->
       exists n f, passenger_count r = Some n /\ 1 <= n <= 8 /\
                   fare_amount r = Some f /\ (0 <= f)%Q /\ (f <= 500)%Q)) /\
  (passenger_count nine_passengers = Some 9 /\
   flagged nine_passengers = false /\
   holds (clean_condition nine_passengers) = false) /\
  (fare_amount fare_600 = Some 600%Q /\
   flagged fare_600 = false /\
   holds (clean_condition fare_600) = false) /\
  (map (fun c => snd (fst c))
       (run_data_quality_checks [nine_passengers; fare_600]) = [0; 0; 0; 0; 0] /\
   df_cleaned [nine_passengers; fare_600] = []).
Proof.
  split; [|repeat split; reflexivity].
  intros r. split; [|split].
  - apply invalid_passenger_count_condition_spec.
  - apply invalid_fare_condition_spec.
  - intros H. apply clean_condition_spec in H.
    destruct H as (p & d & n & x & f & _ & _ & _ & _ & Hn & Hn18 & _ & _
                   & Hf & Hf0 & Hf500).
    exists n, f. auto.
Qed.

(** Whatever the other columns hold, 9 or 10 passengers pass check 3 and
    fail cleaning; so does a fare above 500 and up to 1000 for check 5. *)
Lemma passenger_gap (r : Row) (n : Z) :
  passenger_count r = Some n -> 9 <= n <= 10 ->
  holds (invalid_passenger_count_condition r) = false /\
  holds (clean_condition r) = false.
Proof.
  intros Hn Hr. split; apply not_true_iff_false; intros H.
  - apply invalid_passenger_count_condition_spec in H.
    destruct H as (n' & Hn' & H). rewrite Hn in Hn'. injection Hn' as <-. lia.
  - apply clean_condition_spec in H.
    destruct H as (p & d & n' & x & f & _ & _ & _ & _ & Hn' & H & _).
    rewrite Hn in Hn'. injection Hn' as <-. lia.
Qed.

Lemma fare_gap (r : Row) (f : Q) :
  fare_amount r = Some f -> (500 < f)%Q -> (f <= 1000)%Q ->
  holds (invalid_fare_condition r) = false /\
  holds (clean_condition r) = false.
Proof.
  intros Hf Hlo Hhi. split; apply not_true_iff_false; intros H.
  - apply invalid_fare_condition_spec in H.
    destruct H as (f' & Hf' & H). rewrite Hf in Hf'. injection Hf' as <-.
    destruct H as [H|H]; lra.
  - apply clean_condition_spec in H.
    destruct H as (p & d & n & x & f' & _ & _ & _ & _ & _ & _ & _ & _
                   & Hf' & _ & H).
    rewrite Hf in Hf'. injection Hf' as <-. lra.
Qed.
End Bounds.

(** ** Grouping *)

Section Grouping.
Import Spark.

Lemma same_key_eq (a b : cell Z) : same_key a b = true <-> a = b.
Proof.
  destruct a as [x|], b as [y|]; simpl; split; try congruence.
  - intros H. apply Z.eqb_eq in H. now subst.
  - intros H. injection H as ->. apply Z.eqb_refl.
Qed.

Lemma same_key_neq (a b : cell Z) : same_key a b = false <-> a <> b.
Proof.
  rewrite <- same_key_eq. symmetry. apply not_true_iff_false.
Qed.

Lemma distinct_keys_In (ks : list (cell Z)) (k : cell Z) :
  In k (distinct_keys ks) <-> In k ks.
Proof.
  induction ks as [|a ks IH]; simpl; [tauto|].
  rewrite filter_In, IH, negb_true_iff, same_key_neq.
  destruct (same_key a k) eqn:E.
  - apply same_key_eq in E. tauto.
  - apply same_key_neq in E. tauto.
Qed.

Lemma distinct_keys_NoDup (ks : list (cell Z)) : NoDup (distinct_keys ks).
Proof.
  induction ks as [|a ks IH]; simpl; constructor.
  - rewrite filter_In, negb_true_iff, same_key_neq. tauto.
  - now apply NoDup_filter.
Qed.

Context {R : Type} (key : R -> cell Z).

Lemma group_In (df : list R) (k : cell Z) (r : R) :
  In r (group key df k) <-> In r df /\ key r = k.
Proof.
  unfold group. rewrite filter_In, same_key_eq. intuition congruence.
Qed.

(** The groups of duplicate-free keys hold, together, as many rows as
    there are rows with one of these keys. *)
Lemma groups_length (df : list R) (ks : list (cell Z)) :
  NoDup ks ->
  length (concat (map (group key df) ks))
  = length (List.filter (fun r => existsb (same_key (key r)) ks) df).
Proof.
  induction 1 as [|k ks Hk Hnd IH]; simpl.
  - induction df as [|r df IHdf]; simpl; auto.
  - rewrite length_app, IH. clear IH.
    induction df as [|r df IHdf]; simpl; [reflexivity|].
    destruct (same_key k (key r)) eqn:E.
    + apply same_key_eq in E. subst k.
      assert (E1 : same_key (key r) (key r) = true) by now apply same_key_eq.
      rewrite E1. simpl.
      assert (E2 : existsb (same_key (key r)) ks = false).
      { apply not_true_iff_false. intros H. apply existsb_exists in H.
        destruct H as (k' & Hin & Hk'). apply same_key_eq in Hk'.
        subst k'. contradiction. }
      rewrite E2. simpl. rewrite <- IHdf. lia.
    + assert (E1 : same_key (key r) k = false).
      { apply same_key_neq. apply same_key_neq in E. congruence. }
      rewrite E1. simpl.
      destruct (existsb (same_key (key r)) ks); simpl; rewrite <- IHdf; lia.
Qed.

(** Grouping loses and adds no row. *)
Lemma groupBy_count (df : list R) :
  count (concat (map snd (groupBy key df))) = count df.
Proof.
  unfold count, groupBy. f_equal.
  rewrite map_map. simpl.
  rewrite groups_length by apply distinct_keys_NoDup.
  f_equal. apply forallb_filter_id. apply forallb_forall.
  intros r Hr. apply existsb_exists. exists (key r). split.
  - apply distinct_keys_In. now apply in_map.
  - now apply same_key_eq.
Qed.
End Grouping.

(** ** Validation of the saved table *)

Section Validation.
Import Spark Ingestion.

Lemma delta_roundtrip_count (df : list Enhanced) :
  count (delta_load (delta_save df)) = count df.
Proof. apply groupBy_count. Qed.

(** C4. After the partitioned write the table is read back and its row
    count compared with the count written: when they differ the run stops
    with the assertion error, when they are equal it goes on to the
    summary; a table that returns the rows it was given, partition by
    partition, lets the run go on. *)
Theorem validate_row_count (df_delta written : list Enhanced) :
  (count df_delta <> count written <->
   validate_and_summarise df_delta written
   = AssertionError "Record count mismatch after Delta save") /\
  (count df_delta = count written <->
   validate_and_summarise df_delta written = Proceeds (display df_delta)) /\
  validate_and_summarise (delta_load (delta_save written)) written
  = Proceeds (display (delta_load (delta_save written))).
Proof.
  unfold validate_and_summarise, assert_, bind.
  rewrite delta_roundtrip_count, Z.eqb_refl.
  destruct (count df_delta =? count written) eqn:E.
  - apply Z.eqb_eq in E. repeat split; auto; try congruence.
  - apply Z.eqb_neq in E. repeat split; auto; try congruence.
Qed.
End Validation.

(** ** Derived columns *)

Section DerivedColumns.
Import Spark Ingestion Samples.

Lemma floor_seconds_monotone (p d : Z) :
  p < d -> 0 <= d / MICROS_PER_SECOND - p / MICROS_PER_SECOND.
Proof.
  intros H. unfold MICROS_PER_SECOND.
  assert (p / 1000000 <= d / 1000000) by (apply Z.div_le_mono; lia).
  lia.
Qed.

Lemma minutes_sign (s : Z) :
  0 <= s ->
  let t := (inject_Z s / 60)%Q in
  (0 < s /\ (0 < t)%Q) \/ (s = 0 /\ (t == 0)%Q).
Proof.
  intros Hs t. subst t.
  destruct (Z.eq_dec s 0) as [->|Hne].
  - right. split; reflexivity.
  - left. split; [lia|].
    unfold Qdiv. apply Qmult_lt_0_compat; [|reflexivity].
    unfold Qlt, inject_Z. simpl. lia.
Qed.

Lemma hour_of_day (s : Z) :
  let h := (s mod 86400) / 3600 in
  0 <= h <= 23 /\
  exists day rest, s = 86400 * day + 3600 * h + rest /\ 0 <= rest < 3600.
Proof.
  intros h. subst h.
  pose proof (Z.mod_pos_bound s 86400 ltac:(lia)) as Hm.
  pose proof (Z.div_mod s 86400 ltac:(lia)) as Hs.
  pose proof (Z.div_mod (s mod 86400) 3600 ltac:(lia)) as Hh.
  pose proof (Z.mod_pos_bound (s mod 86400) 3600 ltac:(lia)) as Hr.
  split.
  - split; [apply Z.div_pos; lia|].
    assert ((s mod 86400) / 3600 < 24) by (apply Z.div_lt_upper_bound; lia).
    lia.
  - exists (s / 86400), ((s mod 86400) mod 3600). split; lia.
Qed.

Lemma day_of_week (s : Z) :
  let w := (s / 86400 + 4) mod 7 + 1 in
  1 <= w <= 7 /\ exists k, s / 86400 = 3 + 7 * k + (w - 1).
Proof.
  intros w. subst w.
  pose proof (Z.mod_pos_bound (s / 86400 + 4) 7 ltac:(lia)) as Hm.
  pose proof (Z.div_mod (s / 86400 + 4) 7 ltac:(lia)) as Hd.
  split; [lia|].
  exists ((s / 86400 + 4) / 7 - 1). lia.
Qed.

(** The hour and the day of week of an instant, read off the microsecond
    timestamp itself: shifted by the offset in force at the instant, it
    falls in hour [h] of a day that is [w - 1] days after a Sunday, the
    Sundays being the days 3 + 7 k of the epoch (1970-01-04 was one). *)
Lemma wall_clock (tz : zone) (p : timestamp) :
  let h := (local_seconds tz p mod 86400) / 3600 in
  let w := (local_seconds tz p / 86400 + 4) mod 7 + 1 in
  0 <= h <= 23 /\ 1 <= w <= 7 /\
  exists k r,
    0 <= r < 3600000000 /\
    p + 1000000 * tz p
    = 86400000000 * (3 + 7 * k + (w - 1)) + 3600000000 * h + r.
Proof.
  intros h w. subst h w. unfold local_seconds, MICROS_PER_SECOND.
  set (s := p / 1000000 + tz p).
  pose proof (Z.div_mod p 1000000 ltac:(lia)) as Hp.
  pose proof (Z.mod_pos_bound p 1000000 ltac:(lia)) as Hpf.
  pose proof (Z.div_mod s 86400 ltac:(lia)) as Hs.
  pose proof (Z.mod_pos_bound s 86400 ltac:(lia)) as Hsm.
  pose proof (Z.div_mod (s mod 86400) 3600 ltac:(lia)) as Hh.
  pose proof (Z.mod_pos_bound (s mod 86400) 3600 ltac:(lia)) as Hr.
  pose proof (Z.div_mod (s / 86400 + 4) 7 ltac:(lia)) as Hd.
  pose proof (Z.mod_pos_bound (s / 86400 + 4) 7 ltac:(lia)) as Hdm.
  assert (Hh24 : (s mod 86400) / 3600 < 24)
    by (apply Z.div_lt_upper_bound; lia).
  assert (Hh0 : 0 <= (s mod 86400) / 3600) by (apply Z.div_pos; lia).
  split; [lia|]. split; [lia|].
  exists ((s / 86400 + 4) / 7 - 1),
    (1000000 * ((s mod 86400) mod 3600) + p mod 1000000).
  subst s. split; lia.
Qed.

(** C5. On a cleaned row with pickup instant [p] and dropoff instant [d]
    (microseconds since the epoch), [trip_duration_minutes] is the
    difference of the dropoff and pickup seconds over 60; [pickup_hour] is
    the hour, from 0 to 23, and [pickup_day_of_week] the day, from 1 for
    Sunday to 7 for Saturday, in which [p] falls on the wall clock of the
    session time zone, that is after adding the offset in force at [p];
    [trip_speed_mph] is the distance over the duration in hours when the
    duration is positive, and the number 0 (not NULL) when the duration
    is 0. *)
Theorem df_enhanced_columns (tz : Spark.zone) (df_raw : list Row) (e : Enhanced) :
  In e (df_enhanced tz df_raw) ->
  exists p d x,
    In (trip e) (df_cleaned df_raw) /\
    tpep_pickup_datetime (trip e) = Some p /\
    tpep_dropoff_datetime (trip e) = Some d /\
    trip_distance (trip e) = Some x /\
    let t := (inject_Z (d / 1000000 - p / 1000000) / 60)%Q in
    trip_duration_minutes e = Some t /\
    (exists h w k r,
       pickup_hour e = Some h /\ pickup_day_of_week e = Some w /\
       0 <= h <= 23 /\ 1 <= w <= 7 /\ 0 <= r < 3600000000 /\
       p + 1000000 * tz p
       = 86400000000 * (3 + 7 * k + (w - 1)) + 3600000000 * h + r) /\
    (((0 < t)%Q /\ trip_speed_mph e = Some (x / (t / 60))%Q) \/
     ((t == 0)%Q /\ trip_speed_mph e = Some 0%Q)).
Proof.
  unfold df_enhanced. intros He. apply in_map_iff in He.
  destruct He as (r & <- & Hr).
  pose proof Hr as Hc. apply holds_filter_In in Hc. destruct Hc as [_ Hc].
  apply clean_condition_spec in Hc.
  destruct Hc as (p & d & n & x & f & Hp & Hd & Hpd & _ & _ & _ & Hx & _).
  exists p, d, x. simpl trip.
  split; [exact Hr|]. split; [exact Hp|]. split; [exact Hd|].
  split; [exact Hx|].
  set (t := (inject_Z (d / 1000000 - p / 1000000) / 60)%Q).
  assert (Hdur : trip_duration_minutes (enhance tz r) = Some t).
  { simpl. unfold elapsed_seconds. rewrite Hp, Hd. reflexivity. }
  split; [exact Hdur|]. split.
  - destruct (wall_clock tz p) as (Hh & Hw & k & r' & Hr' & Hclock).
    exists ((local_seconds tz p mod 86400) / 3600),
      ((local_seconds tz p / 86400 + 4) mod 7 + 1), k, r'.
    split; [simpl; rewrite Hp; reflexivity|].
    split; [simpl; rewrite Hp; reflexivity|].
    split; [exact Hh|]. split; [exact Hw|]. split; [exact Hr'|].
    exact Hclock.
  - unfold enhance in *. simpl in *. rewrite Hdur, Hx. simpl.
    pose proof (floor_seconds_monotone p d Hpd) as Hs.
    destruct (minutes_sign _ Hs) as [[_ Ht]|[_ Ht]];
      change (inject_Z (d / MICROS_PER_SECOND - p / MICROS_PER_SECOND) / 60)%Q
        with t in Ht.
    + left. split; [exact Ht|].
      assert (E : Qltb 0 t = true) by now apply Qltb_lt.
      rewrite E.
      assert (E0 : Qeq_bool (t / inject_Z 60) 0 = false).
      { apply not_true_iff_false. intros H0. apply Qeq_bool_iff in H0.
        assert (0 < t / inject_Z 60)%Q.
        { unfold Qdiv. apply Qmult_lt_0_compat; [exact Ht | reflexivity]. }
        lra. }
      rewrite E0. reflexivity.
    + right. split; [exact Ht|].
      assert (E : Qltb 0 t = false) by (apply Qltb_ge; lra).
      rewrite E. reflexivity.
Qed.

Lemma df_enhanced_columns_witness :
  In (enhance Spark.UTC sunday_9am_trip)
     (df_enhanced Spark.UTC [sunday_9am_trip]) /\
  exists p d x,
    In (trip (enhance Spark.UTC sunday_9am_trip))
       (df_cleaned [sunday_9am_trip]) /\
    tpep_pickup_datetime (trip (enhance Spark.UTC sunday_9am_trip)) = Some p /\
    tpep_dropoff_datetime (trip (enhance Spark.UTC sunday_9am_trip)) = Some d /\
    trip_distance (trip (enhance Spark.UTC sunday_9am_trip)) = Some x /\
    let t := (inject_Z (d / 1000000 - p / 1000000) / 60)%Q in
    trip_duration_minutes (enhance Spark.UTC sunday_9am_trip) = Some t /\
    (exists h w k r,
       pickup_hour (enhance Spark.UTC sunday_9am_trip) = Some h /\
       pickup_day_of_week (enhance Spark.UTC sunday_9am_trip) = Some w /\
       0 <= h <= 23 /\ 1 <= w <= 7 /\ 0 <= r < 3600000000 /\
       p + 1000000 * Spark.UTC p
       = 86400000000 * (3 + 7 * k + (w - 1)) + 3600000000 * h + r) /\
    (((0 < t)%Q /\
      trip_speed_mph (enhance Spark.UTC sunday_9am_trip)
      = Some (x / (t / 60))%Q) \/
     ((t == 0)%Q /\
      trip_speed_mph (enhance Spark.UTC sunday_9am_trip) = Some 0%Q)).
Proof.
  split.
  - left. reflexivity.
  - apply (df_enhanced_columns Spark.UTC [sunday_9am_trip]
             (enhance Spark.UTC sunday_9am_trip)).
    left. reflexivity.
Defined.

(** The example of the specification: 15 minutes, hour 8, a Sunday, 12 mph. *)
Example enhance_sunday_trip :
  exists t v,
    trip_duration_minutes (enhance Spark.UTC sunday_trip) = Some t /\ (t == 15)%Q /\
    pickup_hour (enhance Spark.UTC sunday_trip) = Some 8 /\
    pickup_day_of_week (enhance Spark.UTC sunday_trip) = Some 1 /\
    trip_speed_mph (enhance Spark.UTC sunday_trip) = Some v /\ (v == 12)%Q.
Proof. do 2 eexists. repeat split. Qed.

(** An hour later the hour is 9, still on the Sunday. *)
Example enhance_sunday_9am_trip :
  pickup_hour (enhance Spark.UTC sunday_9am_trip) = Some 9 /\
  pickup_day_of_week (enhance Spark.UTC sunday_9am_trip) = Some 1.
Proof. split; reflexivity. Qed.

(** Five hours west of UTC the same pickups fall on the Saturday night
    before, at 03:00 on the Sunday morning, and on the Monday. *)
Example enhance_west_of_utc :
  let tz : Spark.zone := fun _ => - 18000 in
  pickup_hour (enhance tz (trip_of (Some (sunday_8am - 4 * 3600 * 1000000))
                                   (Some sunday_8am) (Some 1) (Some 1%Q)
                                   (Some 5%Q))) = Some 23 /\
  pickup_day_of_week
    (enhance tz (trip_of (Some (sunday_8am - 4 * 3600 * 1000000))
                         (Some sunday_8am) (Some 1) (Some 1%Q) (Some 5%Q)))
  = Some 7 /\
  pickup_hour (enhance tz sunday_trip) = Some 3 /\
  pickup_day_of_week (enhance tz sunday_trip) = Some 1 /\
  pickup_day_of_week
    (enhance tz (trip_of (Some (sunday_8am + 24 * 3600 * 1000000))
                         (Some (sunday_8am + 25 * 3600 * 1000000)) (Some 1)
                         (Some 1%Q) (Some 5%Q)))
  = Some 2.
Proof. repeat split. Qed.

(** A zone whose offset changes: five hours west before 08:30 UTC of the
    sample Sunday, four hours west from then on.  The 08:00 pickup is at
    03:00 and the 09:00 pickup at 05:00 on the wall clock. *)
Example enhance_offset_change :
  let tz : Spark.zone :=
    fun us => if us <? sunday_8am + 1800 * 1000000 then - 18000 else - 14400 in
  pickup_hour (enhance tz sunday_trip) = Some 3 /\
  pickup_hour (enhance tz sunday_9am_trip) = Some 5.
Proof. split; reflexivity. Qed.

(** A cleaned row can have duration 0: its speed is 0. *)
Example enhance_subsecond_trip :
  df_cleaned [subsecond_trip] = [subsecond_trip] /\
  exists t,
    trip_duration_minutes (enhance Spark.UTC subsecond_trip) = Some t /\ (t == 0)%Q /\
    trip_speed_mph (enhance Spark.UTC subsecond_trip) = Some 0%Q.
Proof. split; [reflexivity|]. eexists. repeat split. Qed.
End DerivedColumns.

(** ** The modeling subset *)

Section ModelingSubset.
Import Spark Analysis.

Lemma ml_condition_spec (m : Selected) :
  holds (ml_condition m) = true <-> ml_spec m.
Proof.
  unfold ml_condition, ml_spec, gtQ, ltQ, lit.
  rewrite !holds_and3, !andb_true_iff, !holds_lift2. split.
  - intros [[[[[Hf0 Hf1] Hx0] Hx1] Ht0] Ht1].
    destruct Hf0 as (f & c0 & Hf & Hc0 & Hf0).
    destruct Hf1 as (f' & c1 & Hf' & Hc1 & Hf1).
    destruct Hx0 as (x & c2 & Hx & Hc2 & Hx0).
    destruct Hx1 as (x' & c3 & Hx' & Hc3 & Hx1).
    destruct Ht0 as (t & c4 & Ht & Hc4 & Ht0).
    destruct Ht1 as (t' & c5 & Ht' & Hc5 & Ht1).
    injection Hc0 as <-. injection Hc1 as <-. injection Hc2 as <-.
    injection Hc3 as <-. injection Hc4 as <-. injection Hc5 as <-.
    rewrite Hf in Hf'. injection Hf' as <-.
    rewrite Hx in Hx'. injection Hx' as <-.
    rewrite Ht in Ht'. injection Ht' as <-.
    apply Qltb_lt in Hf0, Hf1, Hx0, Hx1, Ht0, Ht1.
    exists f, x, t. repeat split; assumption.
  - intros (f & x & t & Hf & Hf0 & Hf1 & Hx & Hx0 & Hx1 & Ht & Ht0 & Ht1).
    rewrite Hf, Hx, Ht.
    repeat split; do 2 eexists; repeat split; now apply Qltb_lt.
Qed.

Lemma selected_add_features (l : list Selected) :
  map selected (map add_features l) = l.
Proof.
  induction l as [|m l IH]; simpl; [reflexivity | now rewrite IH].
Qed.

Lemma is_weekend_spec (m : Selected) :
  (is_weekend (add_features m) = Some 1 \/
   is_weekend (add_features m) = Some 0) /\
  (is_weekend (add_features m) = Some 1 <->
   pickup_day_of_week m = Some 1 \/ pickup_day_of_week m = Some 7).
Proof.
  simpl. destruct (pickup_day_of_week m) as [w|]; simpl.
  - destruct (Z.eqb_spec w 1) as [->|H1]; simpl.
    + split; [now left | tauto].
    + destruct (Z.eqb_spec w 7) as [->|H7]; simpl.
      * split; [now left | tauto].
      * split; [now right|]. split; [discriminate|].
        intros [H|H]; injection H as ->; contradiction.
  - split; [now right|]. split; [discriminate | intros [H|H]; discriminate].
Qed.

Lemma is_rush_hour_spec (m : Selected) :
  (is_rush_hour (add_features m) = Some 1 \/
   is_rush_hour (add_features m) = Some 0) /\
  (is_rush_hour (add_features m) = Some 1 <->
   exists h, pickup_hour m = Some h /\ (7 <= h <= 9 \/ 17 <= h <= 19)).
Proof.
  simpl. unfold betweenZ, geZ, leZ, lit.
  destruct (pickup_hour m) as [h|]; simpl.
  - destruct (Z.geb_spec h 7), (Z.leb_spec h 9), (Z.geb_spec h 17),
      (Z.leb_spec h 19); simpl;
      (split; [auto|]); split;
      try discriminate; try reflexivity;
      try (intros _; exists h; split; [reflexivity | lia]);
      try (intros (h' & Hh & Hr); injection Hh as <-; lia).
  - split; [now right|]. split; [discriminate|].
    intros (h & Hh & _). discriminate.
Qed.

Lemma filter_map_commute {A B : Type} (f : B -> bool) (g : A -> B)
    (l : list A) :
  List.filter f (map g l) = map g (List.filter (fun a => f (g a)) l).
Proof.
  induction l as [|a l IH]; simpl; [reflexivity|].
  destruct (f (g a)); simpl; now rewrite IH.
Qed.

Lemma ml_condition_table_spec (e : TableRow) :
  holds (ml_condition (select e)) = true <-> ml_table_spec e.
Proof. apply (ml_condition_spec (select e)). Qed.

Lemma add_features_of_row (e : TableRow) :
  features_of_row e (add_features (select e)).
Proof.
  pose proof (is_weekend_spec (select e)) as [Hw1 Hw2].
  pose proof (is_rush_hour_spec (select e)) as [Hr1 Hr2].
  unfold features_of_row.
  change (selected (add_features (select e))) with (select e).
  repeat (split; [reflexivity|]).
  split; [exact Hw1|]. split; [exact Hw2|]. split; [exact Hr1 | exact Hr2].
Qed.

(** C7. The modeling subset retains exactly the rows of the table with a
    fare strictly between 0 and 100, a distance strictly between 0 and 50
    and a duration strictly between 1 and 120, in their order: each row of
    the subset carries the selected columns of the table row it comes
    from, with [is_weekend] 1 when the day of week of that row is 1 or 7
    and 0 otherwise, and [is_rush_hour] 1 when its hour lies in 7..9 or in
    17..19 and 0 otherwise. *)
Theorem ml_df_spec (df : list TableRow) :
  (exists retained,
      keeps ml_table_spec df retained /\
      Forall2 features_of_row retained (ml_df df)) /\
  keeps ml_spec (map select df) (map selected (ml_df df)) /\
  (forall x, In x (ml_df df) <->
             exists m, In m (map select df) /\ ml_spec m /\ x = add_features m) /\
  Forall (fun x =>
            (is_weekend x = Some 1 \/ is_weekend x = Some 0) /\
            (is_weekend x = Some 1 <->
             pickup_day_of_week (selected x) = Some 1 \/
             pickup_day_of_week (selected x) = Some 7) /\
            (is_rush_hour x = Some 1 \/ is_rush_hour x = Some 0) /\
            (is_rush_hour x = Some 1 <->
             exists h, pickup_hour (selected x) = Some h /\
                       (7 <= h <= 9 \/ 17 <= h <= 19)))
         (ml_df df).
Proof.
  unfold ml_df. split; [|split; [|split]].
  - exists (List.filter (fun e => holds (ml_condition (select e))) df).
    split.
    + apply keeps_filter. intros e. apply ml_condition_table_spec.
    + unfold filter. rewrite filter_map_commute, map_map.
      induction (List.filter (fun e => holds (ml_condition (select e))) df)
        as [|e l IH]; simpl; constructor.
      * apply add_features_of_row.
      * exact IH.
  - rewrite selected_add_features. unfold filter.
    apply keeps_filter. intros m. apply ml_condition_spec.
  - intros x. rewrite in_map_iff. split.
    + intros (m & <- & Hm). apply holds_filter_In in Hm.
      exists m. rewrite <- ml_condition_spec. tauto.
    + intros (m & Hm & Hs & ->). exists m. split; [reflexivity|].
      apply holds_filter_In. rewrite ml_condition_spec. tauto.
  - apply Forall_forall. intros x Hx. apply in_map_iff in Hx.
    destruct Hx as (m & <- & _).
    pose proof (is_weekend_spec m) as [Hw1 Hw2].
    pose proof (is_rush_hour_spec m) as [Hr1 Hr2].
    change (selected (add_features m)) with m. tauto.
Qed.

(** Of three table rows, the one with a fare of 600 is left out; the two
    retained keep their order and their columns. *)
Example ml_df_rows :
  map (fun x => (fare_amount (selected x), pickup_hour (selected x),
                 trip_duration_minutes (selected x)))
      (ml_df [Ingestion.enhance Spark.UTC Samples.sunday_9am_trip;
              Ingestion.enhance Spark.UTC Samples.fare_600;
              Ingestion.enhance Spark.UTC Samples.sunday_trip])
  = map (fun e => (Ingestion.fare_amount (Ingestion.trip e),
                   Ingestion.pickup_hour e,
                   Ingestion.trip_duration_minutes e))
        [Ingestion.enhance Spark.UTC Samples.sunday_9am_trip;
         Ingestion.enhance Spark.UTC Samples.sunday_trip].
Proof. reflexivity. Qed.

(** C10. The analysis recomputes [trip_speed_mph] with no guard against a
    zero duration, and needs none: a row of the modeling subset has a
    duration above 1 and a positive distance, so the divisor is not zero,
    the quotient is a number (not NULL) and it is strictly positive. *)
Theorem ml_df_speed_positive (df : list TableRow) (x : Features) :
  In x (ml_df df) ->
  exists dist t,
    trip_distance (selected x) = Some dist /\
    trip_duration_minutes (selected x) = Some t /\
    (1 < t)%Q /\ ~ (t / 60 == 0)%Q /\
    trip_speed_mph x = Some (dist / (t / 60))%Q /\
    (0 < dist / (t / 60))%Q.
Proof.
  unfold ml_df. intros Hx. apply in_map_iff in Hx.
  destruct Hx as (m & <- & Hm). apply holds_filter_In in Hm.
  destruct Hm as [_ Hm]. apply ml_condition_spec in Hm.
  destruct Hm as (f & dist & t & _ & _ & _ & Hd & Hd0 & _ & Ht & Ht1 & _).
  exists dist, t.
  assert (Hpos : (0 < t / 60)%Q).
  { unfold Qdiv. apply Qmult_lt_0_compat; [lra | reflexivity]. }
  split; [exact Hd|]. split; [exact Ht|]. split; [exact Ht1|].
  split; [lra|]. split.
  - simpl. rewrite Hd, Ht. simpl.
    assert (E : Qeq_bool (t / inject_Z 60) 0 = false).
    { apply not_true_iff_false. intros H0. apply Qeq_bool_iff in H0.
      change (inject_Z 60) with 60%Q in H0. lra. }
    rewrite E. reflexivity.
  - unfold Qdiv at 1. apply Qmult_lt_0_compat; [exact Hd0|].
    now apply Qinv_lt_0_compat.
Qed.
End ModelingSubset.

Section ModelingSubsetExamples.
Import Spark Analysis Samples.

Lemma ml_df_speed_positive_witness :
  In (add_features (select (Ingestion.enhance Spark.UTC sunday_trip)))
     (ml_df [Ingestion.enhance Spark.UTC sunday_trip]) /\
  exists dist t,
    trip_distance
      (selected (add_features (select (Ingestion.enhance Spark.UTC sunday_trip))))
    = Some dist /\
    trip_duration_minutes
      (selected (add_features (select (Ingestion.enhance Spark.UTC sunday_trip))))
    = Some t /\
    (1 < t)%Q /\ ~ (t / 60 == 0)%Q /\
    trip_speed_mph (add_features (select (Ingestion.enhance Spark.UTC sunday_trip)))
    = Some (dist / (t / 60))%Q /\
    (0 < dist / (t / 60))%Q.
Proof.
  split.
  - left. reflexivity.
  - apply (ml_df_speed_positive [Ingestion.enhance Spark.UTC sunday_trip]).
    left. reflexivity.
Defined.

(** The flags of the specification's example: a Sunday at 08:00. *)
Example ml_df_sunday_trip :
  map (fun x => (is_weekend x, is_rush_hour x))
      (ml_df [Ingestion.enhance Spark.UTC sunday_trip; Ingestion.enhance Spark.UTC fare_600])
  = [(Some 1, Some 1)].
Proof. reflexivity. Qed.
End ModelingSubsetExamples.

(** ** Model comparison *)

Section ModelComparison.
Import Spark Analysis.

(** C9. The model with the lower RMSE is the best model: the random forest
    when its RMSE is strictly below that of the linear regression, the
    linear regression otherwise, which includes equal RMSE since the test
    is [rf_rmse < rmse]; feature importances are reported exactly when
    the random forest is the best model. *)
Theorem best_model_spec (rmse rf_rmse : Q) :
  (rmse_of rmse rf_rmse (best_model rmse rf_rmse) <= rmse)%Q /\
  (rmse_of rmse rf_rmse (best_model rmse rf_rmse) <= rf_rmse)%Q /\
  (best_model rmse rf_rmse = rf_model <-> (rf_rmse < rmse)%Q) /\
  (best_model rmse rf_rmse = lr_model <-> (rmse <= rf_rmse)%Q) /\
  ((rf_rmse == rmse)%Q -> best_model rmse rf_rmse = lr_model) /\
  (reports_feature_importance rmse rf_rmse = true <->
   best_model rmse rf_rmse = rf_model).
Proof.
  unfold best_model, reports_feature_importance.
  destruct (Qltb rf_rmse rmse) eqn:E.
  - apply Qltb_lt in E. simpl.
    repeat split; try discriminate; try lra; auto.
  - apply Qltb_ge in E. simpl.
    repeat split; try discriminate; try lra; auto.
Qed.

Example best_model_tie : best_model 3 3 = lr_model.
Proof. reflexivity. Qed.

Example best_model_forest :
  best_model (7 # 2) 3 = rf_model /\
  reports_feature_importance (7 # 2) 3 = true.
Proof. split; reflexivity. Qed.
End ModelComparison.

(** ** Ordering *)

Section Ordering.
Import Spark.
Context {R : Type} (before : R -> R -> bool).
Hypothesis before_total : forall a b, before a b = false -> before b a = true.

Let precedes (a b : R) : Prop := before a b = true.

Lemma insert_by_HdRel (h r : R) (l : list R) :
  HdRel precedes h l -> precedes h r -> HdRel precedes h (insert_by before r l).
Proof.
  intros Hl Hr. destruct l as [|a l]; simpl.
  - constructor. exact Hr.
  - destruct (before r a); constructor.
    + exact Hr.
    + now inversion Hl.
Qed.

Lemma insert_by_Sorted (r : R) (l : list R) :
  Sorted precedes l -> Sorted precedes (insert_by before r l).
Proof.
  induction 1 as [|a l Hs IH Hd]; simpl.
  - repeat constructor.
  - destruct (before r a) eqn:E.
    + constructor; [now constructor | now constructor].
    + constructor; [exact IH|].
      apply insert_by_HdRel; [exact Hd|]. now apply before_total.
Qed.

Lemma orderBy_Sorted (df : list R) : Sorted precedes (orderBy before df).
Proof.
  unfold orderBy. induction df as [|r df IH]; simpl.
  - constructor.
  - now apply insert_by_Sorted.
Qed.

Lemma insert_by_Permutation (r : R) (l : list R) :
  Permutation (insert_by before r l) (r :: l).
Proof.
  induction l as [|a l IH]; simpl.
  - reflexivity.
  - destruct (before r a); [reflexivity|].
    rewrite IH. apply perm_swap.
Qed.

Lemma orderBy_Permutation (df : list R) : Permutation (orderBy before df) df.
Proof.
  unfold orderBy. induction df as [|r df IH]; simpl.
  - reflexivity.
  - rewrite insert_by_Permutation. now constructor.
Qed.
End Ordering.

Section Adjacent.
Import Analysis.
Context {A : Type}.

Lemma Sorted_adjacent (R : A -> A -> Prop) (l : list A) :
  Sorted R l -> adjacent R l.
Proof.
  induction 1 as [|a l Hs IH Hd]; simpl; [exact I|].
  destruct l as [|b l]; [exact I|].
  split; [now inversion Hd | exact IH].
Qed.

Lemma adjacent_impl (R R' : A -> A -> Prop) (l : list A) :
  (forall a b, R a b -> R' a b) -> adjacent R l -> adjacent R' l.
Proof.
  intros H. induction l as [|a l IH]; simpl; [auto|].
  destruct l as [|b l]; [auto|].
  intros [Hab Hl]. split; [now apply H | now apply IH].
Qed.

Lemma adjacent_firstn (R : A -> A -> Prop) (n : nat) (l : list A) :
  adjacent R l -> adjacent R (firstn n l).
Proof.
  revert l. induction n as [|n IH]; intros l Hl; simpl; [exact I|].
  destruct l as [|a l]; [exact I|].
  specialize (IH l). destruct l as [|b l].
  - destruct n; exact I.
  - destruct Hl as [Hab Hl]. specialize (IH Hl).
    destruct n as [|n]; simpl in *; [exact I|].
    split; [exact Hab | exact IH].
Qed.
End Adjacent.

(** ** Revenue by hour *)

Section RevenueRanking.
Import Spark Analysis Samples.

Lemma desc_total (a b : cell Q) : desc a b = false -> desc b a = true.
Proof.
  destruct a as [x|], b as [y|]; simpl; try congruence.
  intros H. apply Qle_bool_iff.
  assert (Hlt : Qltb x y = true) by (unfold Qltb; now rewrite H).
  apply Qltb_lt in Hlt. lra.
Qed.

Lemma desc_greater_or_equal (a b : Revenue) :
  desc (total_revenue a) (total_revenue b) = true -> greater_or_equal a b.
Proof.
  unfold greater_or_equal.
  destruct (total_revenue a) as [x|], (total_revenue b) as [y|]; simpl;
    try congruence; auto.
  apply Qle_bool_iff.
Qed.

Lemma hourly_revenue_Permutation (df : list TableRow) :
  Permutation (hourly_revenue df)
              (map aggregate (groupBy Ingestion.pickup_hour df)).
Proof. unfold hourly_revenue. apply orderBy_Permutation. Qed.

Lemma hourly_revenue_hours (df : list TableRow) :
  Permutation (map revenue_hour (hourly_revenue df))
              (distinct_keys (map Ingestion.pickup_hour df)).
Proof.
  rewrite (Permutation_map revenue_hour (hourly_revenue_Permutation df)).
  unfold groupBy. rewrite !map_map. simpl. rewrite map_id. reflexivity.
Qed.

Lemma aggregate_revenue_of_hour (df : list TableRow) (k : cell Z) :
  In k (map Ingestion.pickup_hour df) ->
  revenue_of_hour df (aggregate (k, group Ingestion.pickup_hour df k)).
Proof.
  intros Hk. unfold revenue_of_hour, aggregate. simpl.
  split; [|repeat split].
  apply in_map_iff in Hk. destruct Hk as (e & He & Hin).
  intros Hnil.
  assert (Hg : In e (group Ingestion.pickup_hour df k))
    by (apply group_In; tauto).
  rewrite Hnil in Hg. contradiction.
Qed.

Lemma hourly_revenue_adjacent (df : list TableRow) :
  adjacent greater_or_equal (hourly_revenue df).
Proof.
  apply adjacent_impl
    with (R := fun a b => desc (total_revenue a) (total_revenue b) = true).
  - apply desc_greater_or_equal.
  - apply Sorted_adjacent. unfold hourly_revenue.
    apply (orderBy_Sorted
             (fun a b => desc (total_revenue a) (total_revenue b))).
    intros a b. apply desc_total.
Qed.

(** C8, as the notebook has it.  There is one row per pickup hour of the
    table, holding the number of trips of the hour, their mean fare and the
    product of the two as total revenue; the rows are sorted by total
    revenue in descending order, so that of two adjacent rows the earlier
    has a total revenue greater than or equal to the later (a NULL
    revenue comes last); the first five rows are reported. *)
Theorem hourly_revenue_spec (df : list TableRow) :
  Forall (revenue_of_hour df) (hourly_revenue df) /\
  NoDup (map revenue_hour (hourly_revenue df)) /\
  (forall e, In e df ->
             In (Ingestion.pickup_hour e)
                (map revenue_hour (hourly_revenue df))) /\
  adjacent greater_or_equal (hourly_revenue df) /\
  top_revenue_hours df = firstn 5 (hourly_revenue df) /\
  adjacent greater_or_equal (top_revenue_hours df).
Proof.
  split; [|split; [|split; [|split; [|split]]]].
  - apply Forall_forall. intros row Hrow.
    apply (Permutation_in _ (hourly_revenue_Permutation df)) in Hrow.
    unfold groupBy in Hrow. rewrite map_map in Hrow.
    apply in_map_iff in Hrow. destruct Hrow as (k & <- & Hk).
    apply aggregate_revenue_of_hour. now apply distinct_keys_In.
  - apply (Permutation_NoDup (Permutation_sym (hourly_revenue_hours df))).
    apply distinct_keys_NoDup.
  - intros e He.
    apply (Permutation_in _ (Permutation_sym (hourly_revenue_hours df))).
    apply distinct_keys_In. now apply in_map.
  - apply hourly_revenue_adjacent.
  - reflexivity.
  - unfold top_revenue_hours, show. apply adjacent_firstn.
    apply hourly_revenue_adjacent.
Qed.

(** C8 as stated fails on a tie: two hours with the same revenue are
    adjacent in the report, and the earlier is not strictly greater than the
    later. *)
Lemma hourly_revenue_tie :
  ~ adjacent strictly_greater (top_revenue_hours tie_table).
Proof.
  intros [(x & y & Hx & Hy & Hlt) _].
  vm_compute in Hx, Hy.
  injection Hx as <-. injection Hy as <-.
  revert Hlt. unfold Qlt. simpl. lia.
Qed.

Example hourly_revenue_tie_rows :
  map (fun row => (revenue_hour row, trip_count row))
      (top_revenue_hours tie_table)
  = [(Some 8, 1); (Some 9, 1)].
Proof. reflexivity. Qed.

(** An hour with two trips ranks before an hour with one. *)
Example hourly_revenue_ranking :
  map (fun row => (revenue_hour row, trip_count row))
      (top_revenue_hours
         [Ingestion.enhance Spark.UTC sunday_trip;
          Ingestion.enhance Spark.UTC sunday_9am_trip;
          Ingestion.enhance Spark.UTC sunday_9am_trip])
  = [(Some 9, 2); (Some 8, 1)].
Proof. reflexivity. Qed.
End RevenueRanking.

(** * Further properties of the notebooks *)

(** ** Checks and cleaning together *)

Section ChecksAfterCleaning.
Import Spark Ingestion Samples.

Lemma clean_not_flagged (r : Row) :
  holds (clean_condition r) = true -> flagged r = false.
Proof.
  intros H. apply clean_condition_spec in H.
  destruct H as (p & d & n & x & f & Hp & Hd & Hpd & Hel & Hn & Hn18 & Hx
                 & Hx0 & Hf & Hf0 & Hf500).
  apply flagged_false. repeat split.
  - intros [H|H]; congruence.
  - intros (p' & d' & Hp' & Hd' & H).
    rewrite Hp in Hp'. rewrite Hd in Hd'.
    injection Hp' as <-. injection Hd' as <-. lia.
  - intros (n' & Hn' & H). rewrite Hn in Hn'. injection Hn' as <-. lia.
  - intros (x' & Hx' & H). rewrite Hx in Hx'. injection Hx' as <-. lra.
  - intros (f' & Hf' & H). rewrite Hf in Hf'. injection Hf' as <-.
    destruct H; lra.
Qed.

Lemma filter_none {A : Type} (f : A -> bool) (l : list A) :
  (forall x, In x l -> f x = false) -> List.filter f l = [].
Proof.
  induction l as [|a l IH]; simpl; intros H; [reflexivity|].
  rewrite (H a) by now left. apply IH. intros x Hx. apply H. now right.
Qed.

Lemma flagged_parts (r : Row) :
  flagged r = false ->
  holds (null_times_condition r) = false /\
  holds (invalid_duration_condition r) = false /\
  holds (invalid_passenger_count_condition r) = false /\
  holds (negative_distance_condition r) = false /\
  holds (invalid_fare_condition r) = false.
Proof.
  unfold flagged. rewrite !orb_false_iff. tauto.
Qed.

Lemma no_violation_in_cleaned (cond : Row -> cell bool) (df_raw : list Row) :
  (forall r, flagged r = false -> holds (cond r) = false) ->
  count (filter cond (df_cleaned df_raw)) = 0.
Proof.
  intros H. unfold filter at 1. rewrite filter_none; [reflexivity|].
  intros r Hr. apply H, clean_not_flagged.
  now apply holds_filter_In in Hr.
Qed.

Lemma below_fraction_zero (total : Z) (ratio : Q) :
  (0 < ratio)%Q -> below_fraction 0 total ratio = (0 <? total).
Proof.
  intros Hr. apply eq_true_iff_eq.
  rewrite below_fraction_spec, Z.ltb_lt.
  unfold Qlt in *. destruct ratio as [a b]. simpl in *. nia.
Qed.

(** X1. The cleaned dataset has no violation left: run on the output of
    cleaning, each of the five checks counts 0 rows.  The null-time check
    passes; each of the four ratio checks passes exactly when the cleaned
    dataset has a row, since on an empty dataset 0 is not below 0. *)
Theorem quality_checks_of_cleaned (df_raw : list Row) :
  run_data_quality_checks (df_cleaned df_raw)
  = [("Null pickup/dropoff times"%string, 0, true);
     ("Invalid trip duration"%string, 0, 0 <? count (df_cleaned df_raw));
     ("Invalid passenger count"%string, 0, 0 <? count (df_cleaned df_raw));
     ("Negative trip distance"%string, 0, 0 <? count (df_cleaned df_raw));
     ("Invalid fare amount"%string, 0, 0 <? count (df_cleaned df_raw))].
Proof.
  unfold run_data_quality_checks.
  rewrite !no_violation_in_cleaned
    by (intros r Hr; apply flagged_parts in Hr; tauto).
  rewrite !below_fraction_zero by reflexivity.
  reflexivity.
Qed.

(** X2. A row that no check counts is removed by cleaning in exactly these
    cases: its passenger count is NULL or is 9 or 10, its distance is NULL,
    or its fare is NULL or above 500 (and then at most 1000). *)
Theorem removed_without_being_counted (r : Row) :
  flagged r = false ->
  (holds (clean_condition r) = false <->
   passenger_count r = None \/
   (exists n, passenger_count r = Some n /\ 9 <= n <= 10) \/
   trip_distance r = None \/
   fare_amount r = None \/
   (exists f, fare_amount r = Some f /\ (500 < f)%Q /\ (f <= 1000)%Q)).
Proof.
  intros Hfl. apply flagged_false in Hfl.
  destruct Hfl as (Hnull & Hdur & Hpc & Hdist & Hfare).
  rewrite <- not_true_iff_false, clean_condition_spec.
  unfold null_times_spec, invalid_duration_spec, invalid_passenger_count_spec,
    negative_distance_spec, invalid_fare_spec in *.
  destruct (tpep_pickup_datetime r) as [p|] eqn:Ep; [|tauto].
  destruct (tpep_dropoff_datetime r) as [d|] eqn:Ed; [|tauto].
  assert (Hpd : p < d /\ d / MICROS_PER_SECOND - p / MICROS_PER_SECOND <= 86400).
  { split; apply Z.nlt_ge || apply Z.nle_gt; intros H; apply Hdur;
      exists p, d; repeat split; auto; lia. }
  split.
  - intros Hnot.
    destruct (passenger_count r) as [n|] eqn:En; [|now left].
    destruct (trip_distance r) as [x|] eqn:Ex; [|tauto].
    destruct (fare_amount r) as [f|] eqn:Ef; [|tauto].
    assert (Hn : 1 <= n <= 10).
    { split; apply Z.nlt_ge; intros H; apply Hpc; exists n; split; auto; lia. }
    assert (Hx : (0 < x)%Q).
    { apply Qnot_le_lt. intros H. apply Hdist. now exists x. }
    assert (Hf : (0 <= f)%Q /\ (f <= 1000)%Q).
    { split; apply Qnot_lt_le; intros H; apply Hfare; exists f; auto. }
    destruct (Z_le_gt_dec n 8) as [Hn8|Hn8].
    + destruct (Qlt_le_dec 500 f) as [Hf5|Hf5].
      * right. right. right. right. exists f. tauto.
      * exfalso. apply Hnot. exists p, d, n, x, f.
        repeat split; auto; try tauto; lia.
    + right. left. exists n. split; auto. lia.
  - intros Hcase (p' & d' & n & x & f & _ & _ & _ & _ & Hn & Hn18 & Hx & _
                  & Hf & _ & Hf500).
    destruct Hcase as [H|[(n' & Hn' & H)|[H|[H|(f' & Hf' & H & _)]]]];
      try congruence.
    + rewrite Hn in Hn'. injection Hn' as <-. lia.
    + rewrite Hf in Hf'. injection Hf' as <-. lra.
Qed.

Lemma removed_without_being_counted_witness :
  flagged nine_passengers = false /\
  (holds (clean_condition nine_passengers) = false <->
   passenger_count nine_passengers = None \/
   (exists n, passenger_count nine_passengers = Some n /\ 9 <= n <= 10) \/
   trip_distance nine_passengers = None \/
   fare_amount nine_passengers = None \/
   (exists f, fare_amount nine_passengers = Some f /\
              (500 < f)%Q /\ (f <= 1000)%Q)).
Proof.
  split.
  - reflexivity.
  - apply (removed_without_being_counted nine_passengers). reflexivity.
Defined.
End ChecksAfterCleaning.

(** ** The cleaning report *)

Section CleaningReport.
Import Spark Python Ingestion Report.

Lemma disjoint_filters_length {A : Type} (f g : A -> bool) (l : list A) :
  (forall x, f x = true -> g x = false) ->
  (length (List.filter f l) + length (List.filter g l) <= length l)%nat.
Proof.
  intros H. induction l as [|a l IH]; simpl; [lia|].
  destruct (f a) eqn:Ef.
  - rewrite (H a Ef). simpl. lia.
  - destruct (g a); simpl; lia.
Qed.

Lemma violations_are_removed (cond : Row -> cell bool) (df_raw : list Row) :
  (forall r, flagged r = false -> holds (cond r) = false) ->
  count (filter cond df_raw) <= count df_raw - count (df_cleaned df_raw).
Proof.
  intros H. unfold df_cleaned, count, filter.
  pose proof (disjoint_filters_length
                (fun r => holds (clean_condition r))
                (fun r => holds (cond r)) df_raw) as Hlen.
  assert (Hd : forall r, holds (clean_condition r) = true ->
                         holds (cond r) = false).
  { intros r Hr. apply H. now apply clean_not_flagged. }
  specialize (Hlen Hd). lia.
Qed.

(** X3. The number of records removed by cleaning is at least the count
    of every one of the five checks: a row counted by a check never
    survives cleaning. *)
Theorem records_removed_cover_violations (df_raw : list Row) :
  Forall (fun c : Check => snd (fst c) <= records_removed (cleaning_report df_raw))
         (run_data_quality_checks df_raw).
Proof.
  unfold run_data_quality_checks, cleaning_report. simpl.
  repeat constructor; simpl; apply violations_are_removed;
    intros r Hr; apply flagged_parts in Hr; tauto.
Qed.

Lemma count_zero_nil {A : Type} (l : list A) : count l = 0 <-> l = [].
Proof.
  unfold count. destruct l; simpl; split; try congruence; lia.
Qed.

Lemma ratio_percent (a b : Z) :
  0 <= a <= b -> 0 < b ->
  let q := (inject_Z a / inject_Z b * 100)%Q in
  (0 <= q)%Q /\ (q <= 100)%Q /\ ((q == 100)%Q <-> a = b).
Proof.
  intros Ha Hb q. subst q.
  assert (Hb' : (0 < inject_Z b)%Q).
  { change 0%Q with (inject_Z 0). now rewrite <- Zlt_Qlt. }
  assert (Ha0 : (0 <= inject_Z a)%Q).
  { change 0%Q with (inject_Z 0). rewrite <- Zle_Qle. lia. }
  assert (Hab : (inject_Z a <= inject_Z b)%Q) by (rewrite <- Zle_Qle; lia).
  assert (Hq0 : (0 <= inject_Z a / inject_Z b)%Q).
  { apply Qle_shift_div_l; [exact Hb' | lra]. }
  assert (Hq1 : (inject_Z a / inject_Z b <= 1)%Q).
  { apply Qle_shift_div_r; [exact Hb' | lra]. }
  split; [lra|]. split; [lra|]. split.
  - intros H.
    assert (E : (inject_Z a / inject_Z b == 1)%Q) by lra.
    assert (E' : (inject_Z a == inject_Z b)%Q).
    { rewrite <- (Qmult_div_r (inject_Z a) (inject_Z b)) by lra.
      rewrite E. ring. }
    exact (proj1 (inject_Z_injective a b) E').
  - intros ->. field. lra.
Qed.

(** X4. After cleaning, the report gives the original and the cleaned
    count and their difference, which lies between 0 and the original
    count.  The data-quality percentage raises ZeroDivisionError exactly on
    an empty raw dataset; otherwise it lies between 0 and 100 and is 100
    exactly when no record was removed. *)
Theorem cleaning_report_spec (df_raw : list Row) :
  let rep := cleaning_report df_raw in
  cleaned_records rep + records_removed rep = original_records rep /\
  0 <= records_removed rep <= original_records rep /\
  (data_quality rep = Raises ZeroDivisionError <-> df_raw = []) /\
  (df_raw <> [] ->
   exists q, data_quality rep = Returns q /\ (0 <= q)%Q /\ (q <= 100)%Q /\
             ((q == 100)%Q <-> records_removed rep = 0)).
Proof.
  unfold cleaning_report, true_div. simpl.
  pose proof (count_nonneg (df_cleaned df_raw)) as H0.
  pose proof (count_filter_le clean_condition df_raw) as Hle.
  fold (df_cleaned df_raw) in Hle.
  split; [lia|]. split; [lia|].
  destruct (count df_raw =? 0) eqn:E.
  - apply Z.eqb_eq in E. pose proof E as E'. apply count_zero_nil in E'.
    split; [tauto|]. intros Hne. contradiction.
  - apply Z.eqb_neq in E. split.
    + split; [discriminate|]. intros Hnil. apply count_zero_nil in Hnil.
      contradiction.
    + intros _. eexists. split; [reflexivity|].
      pose proof (count_nonneg df_raw) as HN.
      destruct (ratio_percent (count (df_cleaned df_raw)) (count df_raw))
        as (Hq0 & Hq1 & Hq); [lia | lia |].
      split; [exact Hq0|]. split; [exact Hq1|].
      rewrite Hq. lia.
Qed.

Lemma cleaning_report_spec_nonempty_witness :
  let rep := cleaning_report [Samples.sunday_trip; Samples.fare_600] in
  cleaned_records rep + records_removed rep = original_records rep /\
  0 <= records_removed rep <= original_records rep /\
  (data_quality rep = Raises ZeroDivisionError <->
   [Samples.sunday_trip; Samples.fare_600] = []) /\
  ([Samples.sunday_trip; Samples.fare_600] <> [] ->
   exists q, data_quality rep = Returns q /\ (0 <= q)%Q /\ (q <= 100)%Q /\
             ((q == 100)%Q <-> records_removed rep = 0)).
Proof.
  apply (cleaning_report_spec [Samples.sunday_trip; Samples.fare_600]).
Defined.

Example cleaning_report_sample :
  exists q,
    data_quality (cleaning_report [Samples.sunday_trip; Samples.fare_600])
    = Returns q /\ (q == 50)%Q.
Proof. eexists. split; reflexivity. Qed.
End CleaningReport.

(** ** Ranges of the derived columns *)

Section EnhancedRanges.
Import Spark Ingestion.

(** The derived columns of a row that passed cleaning. *)
Lemma enhance_clean (tz : Spark.zone) (r : Row) :
  clean_spec r ->
  exists p d x f,
    tpep_pickup_datetime r = Some p /\ trip_distance r = Some x /\
    fare_amount r = Some f /\ (0 < x)%Q /\ (0 <= f)%Q /\ (f <= 500)%Q /\
    let s := d / MICROS_PER_SECOND - p / MICROS_PER_SECOND in
    let t := (inject_Z s / 60)%Q in
    0 <= s <= 86400 /\
    trip_duration_minutes (enhance tz r) = Some t /\
    pickup_hour (enhance tz r)
    = Some ((local_seconds tz p mod 86400) / 3600) /\
    pickup_day_of_week (enhance tz r)
    = Some ((local_seconds tz p / 86400 + 4) mod 7 + 1) /\
    ((0 < s /\ trip_speed_mph (enhance tz r) = Some (x / (t / 60))%Q) \/
     (s = 0 /\ trip_speed_mph (enhance tz r) = Some 0%Q)).
Proof.
  intros (p & d & n & x & f & Hp & Hd & Hpd & Hel & _ & _ & Hx & Hx0 & Hf
          & Hf0 & Hf500).
  exists p, d, x, f.
  split; [exact Hp|]. split; [exact Hx|]. split; [exact Hf|].
  split; [exact Hx0|]. split; [exact Hf0|]. split; [exact Hf500|].
  set (s := d / MICROS_PER_SECOND - p / MICROS_PER_SECOND) in *.
  set (t := (inject_Z s / 60)%Q).
  pose proof (floor_seconds_monotone p d Hpd) as Hs. fold s in Hs.
  assert (Hdur : trip_duration_minutes (enhance tz r) = Some t).
  { simpl. unfold elapsed_seconds. rewrite Hp, Hd. reflexivity. }
  split; [lia|]. split; [exact Hdur|].
  split; [simpl; rewrite Hp; reflexivity|].
  split; [simpl; rewrite Hp; reflexivity|].
  unfold enhance in *. simpl in *. rewrite Hdur, Hx. simpl.
  destruct (minutes_sign s Hs) as [[Hpos Ht]|[Hz Ht]]; fold t in Ht.
  - left. split; [exact Hpos|].
    assert (E : Qltb 0 t = true) by now apply Qltb_lt.
    rewrite E.
    assert (E0 : Qeq_bool (t / inject_Z 60) 0 = false).
    { apply not_true_iff_false. intros H0. apply Qeq_bool_iff in H0.
      assert (0 < t / inject_Z 60)%Q.
      { unfold Qdiv. apply Qmult_lt_0_compat; [exact Ht | reflexivity]. }
      lra. }
    rewrite E0. reflexivity.
  - right. split; [exact Hz|].
    assert (E : Qltb 0 t = false) by (apply Qltb_ge; lra).
    rewrite E. reflexivity.
Qed.

Lemma df_enhanced_In (tz : Spark.zone) (df_raw : list Row) (e : Enhanced) :
  In e (df_enhanced tz df_raw) <->
  exists r, e = enhance tz r /\ In r df_raw /\ clean_spec r.
Proof.
  unfold df_enhanced, df_cleaned. rewrite in_map_iff. split.
  - intros (r & <- & Hr). apply holds_filter_In in Hr.
    exists r. rewrite <- clean_condition_spec. tauto.
  - intros (r & -> & Hr & Hs). exists r. split; [reflexivity|].
    apply holds_filter_In. rewrite clean_condition_spec. tauto.
Qed.

Lemma minutes_range (s : Z) :
  0 <= s <= 86400 ->
  (0 <= inject_Z s / 60)%Q /\ (inject_Z s / 60 <= 1440)%Q.
Proof.
  intros Hs.
  assert (H0 : (inject_Z 0 <= inject_Z s)%Q) by (rewrite <- Zle_Qle; lia).
  assert (H1 : (inject_Z s <= inject_Z 86400)%Q) by (rewrite <- Zle_Qle; lia).
  change (inject_Z 0) with 0%Q in H0. change (inject_Z 86400) with 86400%Q in H1.
  split.
  - apply Qle_shift_div_l; [reflexivity | lra].
  - apply Qle_shift_div_r; [reflexivity | lra].
Qed.

(** X5. In the enhanced dataset every derived column is a number within
    its range: the duration lies between 0 and 1440 minutes, the hour
    between 0 and 23, the day of week between 1 and 7, and the speed is not
    negative; on a row whose duration is 0 the speed is 0. *)
Theorem df_enhanced_ranges (tz : Spark.zone) (df_raw : list Row) :
  Forall (fun e =>
            exists t h w v,
              trip_duration_minutes e = Some t /\
              (0 <= t)%Q /\ (t <= 1440)%Q /\
              pickup_hour e = Some h /\ 0 <= h <= 23 /\
              pickup_day_of_week e = Some w /\ 1 <= w <= 7 /\
              trip_speed_mph e = Some v /\ (0 <= v)%Q /\
              ((t == 0)%Q -> v = 0%Q))
         (df_enhanced tz df_raw).
Proof.
  apply Forall_forall. intros e He. apply df_enhanced_In in He.
  destruct He as (r & -> & _ & Hs).
  destruct (enhance_clean tz r Hs)
    as (p & d & x & f & Hp & Hx & _ & Hx0 & _ & _ & Hrange & Hdur & Hh & Hw
        & Hspeed).
  set (s := d / MICROS_PER_SECOND - p / MICROS_PER_SECOND) in *.
  set (t := (inject_Z s / 60)%Q) in *.
  destruct (minutes_range s Hrange) as [Ht0 Ht1]. fold t in Ht0, Ht1.
  destruct (hour_of_day (local_seconds tz p)) as [Hhr _].
  destruct (day_of_week (local_seconds tz p)) as [Hwr _].
  destruct Hspeed as [[Hpos Hv]|[Hz Hv]].
  - destruct (minutes_sign s (proj1 Hrange)) as [[_ Ht]|[Hz _]]; [|lia].
    fold t in Ht.
    assert (Hv0 : (0 < x / (t / 60))%Q).
    { unfold Qdiv at 1. apply Qmult_lt_0_compat; [exact Hx0|].
      apply Qinv_lt_0_compat. unfold Qdiv.
      apply Qmult_lt_0_compat; [exact Ht | reflexivity]. }
    exists t, (local_seconds tz p mod 86400 / 3600),
      ((local_seconds tz p / 86400 + 4) mod 7 + 1), (x / (t / 60))%Q.
    repeat split; try assumption; try lia; try lra.
  - destruct (minutes_sign s (proj1 Hrange)) as [[Hpos _]|[_ Ht]]; [lia|].
    fold t in Ht.
    exists t, (local_seconds tz p mod 86400 / 3600),
      ((local_seconds tz p / 86400 + 4) mod 7 + 1), 0%Q.
    repeat split; try assumption; try lia; try lra.
Qed.

(** X6. Cleaning, enhancing and the violation counts work partition by
    partition: on a dataset given in two parts, the cleaned and the
    enhanced dataset are the two results one after the other, and each
    violation count is the sum of the counts of the parts. *)
Theorem ingestion_by_parts (tz : Spark.zone) (part1 part2 : list Row) :
  df_cleaned (part1 ++ part2) = df_cleaned part1 ++ df_cleaned part2 /\
  df_enhanced tz (part1 ++ part2)
  = df_enhanced tz part1 ++ df_enhanced tz part2 /\
  map (fun c : Check => snd (fst c)) (run_data_quality_checks (part1 ++ part2))
  = map (fun cc : Check * Check => snd (fst (fst cc)) + snd (fst (snd cc)))
        (combine (run_data_quality_checks part1)
                 (run_data_quality_checks part2)).
Proof.
  unfold df_enhanced, df_cleaned, run_data_quality_checks, filter, count.
  rewrite !filter_app, !map_app, !length_app, !Nat2Z.inj_add.
  repeat split.
Qed.
End EnhancedRanges.

(** ** Credentials and mount *)

Section StorageSetup.
Import Python Storage.

Lemma mounted_listable (w : Workspace) (src key : string) (w' : Workspace) :
  dbutils_fs_mount w src MOUNT_POINT key = Returns w' ->
  listable w' MOUNT_POINT = true /\
  (forall p, p <> MOUNT_POINT -> listable w' p = listable w p) /\
  secrets w' = secrets w.
Proof.
  unfold dbutils_fs_mount. destruct (accepts w src MOUNT_POINT key);
    [|discriminate].
  intros H. injection H as <-. cbn [listable secrets]. split; [|split].
  - now rewrite String.eqb_refl.
  - intros p Hp. apply String.eqb_neq in Hp. now rewrite Hp.
  - reflexivity.
Qed.

Lemma setup_listed (w : Workspace) :
  listable w MOUNT_POINT = true ->
  setup w = (w, snd (credentials_cell w None) ++ [AlreadyMounted; DisplayedContents],
             Returns tt).
Proof.
  intros El. unfold setup, mount_cell, is_mounted. rewrite El.
  cbn [negb fst snd]. rewrite El. reflexivity.
Qed.

Lemma setup_no_secret (w : Workspace) :
  listable w MOUNT_POINT = false ->
  secrets w SECRET_SCOPE "storage-account-key" = None ->
  setup w = (w, [ErrorRetrievingCredentials; UsingAlternativeAuthentication;
                 ErrorMounting (NameError "storage_account_key")],
             Raises (ExternalError "dbutils.fs.ls")).
Proof.
  intros El Ek. unfold setup, credentials_cell, mount_cell, is_mounted.
  rewrite El, Ek. cbn [negb fst snd]. rewrite El. reflexivity.
Qed.

Lemma setup_refused (w : Workspace) (k : string) :
  listable w MOUNT_POINT = false ->
  secrets w SECRET_SCOPE "storage-account-key" = Some k ->
  accepts w source MOUNT_POINT k = false ->
  setup w = (w, [RetrievedCredentials;
                 ErrorMounting (ExternalError "dbutils.fs.mount")],
             Raises (ExternalError "dbutils.fs.ls")).
Proof.
  intros El Ek Ea.
  unfold setup, credentials_cell, mount_cell, is_mounted, dbutils_fs_mount.
  rewrite El, Ek. cbn [negb fst snd]. rewrite Ea. cbn [fst snd].
  rewrite El. reflexivity.
Qed.

Lemma setup_mounted (w : Workspace) (k : string) :
  listable w MOUNT_POINT = false ->
  secrets w SECRET_SCOPE "storage-account-key" = Some k ->
  accepts w source MOUNT_POINT k = true ->
  exists w',
    dbutils_fs_mount w source MOUNT_POINT k = Returns w' /\
    setup w = (w', [RetrievedCredentials; Mounted; DisplayedContents],
               Returns tt).
Proof.
  intros El Ek Ea.
  destruct (dbutils_fs_mount w source MOUNT_POINT k) as [w'|e] eqn:Em.
  - exists w'. split; [reflexivity|].
    pose proof (mounted_listable _ _ _ _ Em) as (Hl & _).
    unfold setup, credentials_cell, mount_cell, is_mounted.
    rewrite El, Ek. cbn [negb fst snd]. rewrite Em. cbn [fst snd].
    rewrite Hl. reflexivity.
  - unfold dbutils_fs_mount in Em. rewrite Ea in Em. discriminate.
Qed.

Ltac setup_cases :=
  repeat split; intros; simpl in *;
  try solve [intuition (discriminate || congruence || eauto)];
  try solve [firstorder (discriminate || congruence)].

(** X7. In a fresh session the two setup cells end in an exception exactly
    when the mount point cannot be listed and either the secret is missing
    (the unbound [storage_account_key] is caught as a NameError inside the
    mount attempt) or the mount is refused: the failure of the attempt is
    caught, and the listing after it, which has no handler, raises.  The
    workspace is then unchanged.  When the mount point can be listed no
    mount is attempted; in every case no other path changes. *)
Theorem setup_outcome (w : Workspace) :
  let key := secrets w SECRET_SCOPE "storage-account-key" in
  let w' := fst (fst (setup w)) in
  let log := snd (fst (setup w)) in
  (snd (setup w) = Raises (ExternalError "dbutils.fs.ls") <->
   listable w MOUNT_POINT = false /\
   (key = None \/
    exists k, key = Some k /\ accepts w source MOUNT_POINT k = false)) /\
  (snd (setup w) = Returns tt <->
   listable w MOUNT_POINT = true \/
   exists k, key = Some k /\ accepts w source MOUNT_POINT k = true) /\
  (snd (setup w) <> Returns tt -> w' = w) /\
  (In (ErrorMounting (NameError "storage_account_key")) log <->
   listable w MOUNT_POINT = false /\ key = None) /\
  (listable w MOUNT_POINT = true -> w' = w /\ ~ In Mounted log) /\
  (forall p, p <> MOUNT_POINT -> listable w' p = listable w p).
Proof.
  intros key w' log. subst w' log.
  destruct (listable w MOUNT_POINT) eqn:El.
  - rewrite (setup_listed w El). cbn [fst snd].
    assert (Hlog : forall ev, ev <> RetrievedCredentials ->
                     ev <> ErrorRetrievingCredentials ->
                     ev <> UsingAlternativeAuthentication ->
                     ev <> AlreadyMounted -> ev <> DisplayedContents ->
                     ~ In ev (snd (credentials_cell w None)
                              ++ [AlreadyMounted; DisplayedContents])).
    { intros ev H1 H2 H3 H4 H5 Hin. unfold credentials_cell in Hin.
      destruct (secrets w SECRET_SCOPE "storage-account-key");
        simpl in Hin; intuition congruence. }
    pose proof (Hlog (ErrorMounting (NameError "storage_account_key"))
                  ltac:(discriminate) ltac:(discriminate)
                  ltac:(discriminate) ltac:(discriminate)
                  ltac:(discriminate)) as Hn.
    pose proof (Hlog Mounted ltac:(discriminate) ltac:(discriminate)
                  ltac:(discriminate) ltac:(discriminate)
                  ltac:(discriminate)) as Hm.
    clear Hlog. setup_cases.
  - destruct key as [k|] eqn:Ek; subst key.
    + destruct (accepts w source MOUNT_POINT k) eqn:Ea.
      * destruct (setup_mounted w k El Ek Ea) as (w1 & Em & ->).
        pose proof (mounted_listable _ _ _ _ Em) as (_ & Hp & _).
        cbn [fst snd]. setup_cases.
      * rewrite (setup_refused w k El Ek Ea). cbn [fst snd]. setup_cases.
    + rewrite (setup_no_secret w El Ek). cbn [fst snd]. setup_cases.
Qed.
End StorageSetup.

(** ** Sorted prefixes and sums over groups *)

Section SortedPrefix.
Import Spark.
Context {R : Type} (before : R -> R -> bool).
Hypothesis before_total : forall a b, before a b = false -> before b a = true.
Hypothesis before_trans :
  forall a b c, before a b = true -> before b c = true -> before a c = true.

Lemma orderBy_StronglySorted (df : list R) :
  StronglySorted (fun a b => before a b = true) (orderBy before df).
Proof.
  apply Sorted_StronglySorted.
  - intros a b c. apply before_trans.
  - apply (orderBy_Sorted before before_total).
Qed.

(** Every row kept by [firstn] stands before every row it leaves out. *)
Lemma firstn_before_skipn (n : nat) (l : list R) :
  StronglySorted (fun a b => before a b = true) l ->
  forall a b, In a (firstn n l) -> In b (skipn n l) -> before a b = true.
Proof.
  intros Hs. revert n. induction Hs as [|x l Hs IH Hx]; intros n a b Ha Hb.
  - destruct n; contradiction.
  - destruct n as [|n]; simpl in *; [contradiction|].
    destruct Ha as [<-|Ha].
    + rewrite Forall_forall in Hx. apply Hx.
      rewrite <- (firstn_skipn n l). apply in_or_app. now right.
    + now apply (IH n).
Qed.
End SortedPrefix.

Section GroupSums.
Import Spark Exploration.

Lemma sumZ_Permutation (xs ys : list Z) :
  Permutation xs ys -> sumZ xs = sumZ ys.
Proof.
  induction 1; simpl; lia.
Qed.

Lemma sumZ_lengths {A : Type} (ls : list (list A)) :
  sumZ (map (fun l => count l) ls) = count (concat ls).
Proof.
  unfold count. induction ls as [|l ls IH]; simpl; [reflexivity|].
  rewrite length_app, IH. lia.
Qed.

Context {R : Type} (key : R -> cell Z).

Lemma groupBy_keys (df : list R) :
  map fst (groupBy key df) = distinct_keys (map key df).
Proof.
  unfold groupBy. rewrite map_map. simpl. apply map_id.
Qed.

Lemma groupBy_counts (df : list R) :
  sumZ (map (fun g => count (snd g)) (groupBy key df)) = count df.
Proof.
  rewrite <- (groupBy_count key df), <- sumZ_lengths, map_map.
  reflexivity.
Qed.

Lemma groupBy_In (df : list R) (g : cell Z * list R) :
  In g (groupBy key df) ->
  snd g = group key df (fst g) /\ In (fst g) (map key df) /\ snd g <> [].
Proof.
  unfold groupBy. intros H. apply in_map_iff in H.
  destruct H as (k & <- & Hk).
  apply (proj1 (distinct_keys_In _ _)) in Hk. simpl.
  split; [reflexivity|]. split; [exact Hk|].
  apply in_map_iff in Hk. destruct Hk as (r & Hr & Hin).
  intros Hnil.
  assert (Hg : In r (group key df k)) by (apply group_In; tauto).
  rewrite Hnil in Hg. contradiction.
Qed.

Lemma count_positive {A : Type} (l : list A) : l <> [] -> 1 <= count l.
Proof.
  unfold count. destruct l; [congruence | simpl; lia].
Qed.

(** Keys without duplicates that all lie in [lo, lo + n) are at most [n]. *)
Lemma bounded_keys_length (ks : list (cell Z)) (lo : Z) (n : nat) :
  NoDup ks ->
  (forall k, In k ks -> exists z, k = Some z /\ lo <= z < lo + Z.of_nat n) ->
  (length ks <= n)%nat.
Proof.
  intros Hnd Hr.
  assert (Hincl : incl ks (map (fun i => Some (lo + Z.of_nat i)) (seq 0 n))).
  { intros k Hk. destruct (Hr k Hk) as (z & -> & Hz).
    apply in_map_iff. exists (Z.to_nat (z - lo)). split.
    - f_equal. lia.
    - apply in_seq. lia. }
  pose proof (NoDup_incl_length Hnd Hincl) as Hlen.
  rewrite length_map, length_seq in Hlen. exact Hlen.
Qed.
End GroupSums.

Section Ascending.
Import Spark Exploration Analysis.

Lemma asc_total (a b : cell Z) : asc a b = false -> asc b a = true.
Proof.
  destruct a as [x|], b as [y|]; simpl; try congruence.
  rewrite Z.leb_gt, Z.leb_le. lia.
Qed.

Lemma asc_trans (a b c : cell Z) :
  asc a b = true -> asc b c = true -> asc a c = true.
Proof.
  destruct a as [x|], b as [y|], c as [z|]; simpl; try congruence.
  rewrite !Z.leb_le. lia.
Qed.

Lemma asc_strict (a b : cell Z) :
  asc a b = true -> a <> b -> strictly_before a b.
Proof.
  destruct a as [x|], b as [y|]; simpl; try congruence; auto.
  rewrite Z.leb_le. intros H Hne.
  assert (x <> y) by congruence. lia.
Qed.

(** A list of keys in ascending order and without duplicates ascends
    strictly. *)
Lemma ascending_NoDup_strict (ks : list (cell Z)) :
  Sorted (fun a b => asc a b = true) ks -> NoDup ks ->
  adjacent strictly_before ks.
Proof.
  induction 1 as [|a l Hs IH Hd]; intros Hnd; simpl; [exact I|].
  destruct l as [|b l]; [exact I|].
  inversion Hnd as [|? ? Hna Hnd']; subst.
  split; [|now apply IH].
  apply asc_strict; [now inversion Hd|].
  intros ->. apply Hna. now left.
Qed.

Lemma Sorted_map {A B : Type} (f : A -> B) (RB : B -> B -> Prop) (l : list A) :
  Sorted (fun a b => RB (f a) (f b)) l -> Sorted RB (map f l).
Proof.
  induction 1 as [|a l Hs IH Hd]; simpl; constructor; [exact IH|].
  destruct Hd; simpl; constructor; assumption.
Qed.
End Ascending.

(** ** Trip patterns by hour and by day of week *)

Section TripPatterns.
Import Spark Python Exploration Analysis.

Lemma hourly_trips_Permutation (df : list TableRow) :
  Permutation (hourly_trips df)
              (map aggregate_hour (groupBy Ingestion.pickup_hour df)).
Proof. unfold hourly_trips. apply orderBy_Permutation. Qed.

Lemma hourly_trips_hours (df : list TableRow) :
  Permutation (map ht_pickup_hour (hourly_trips df))
              (distinct_keys (map Ingestion.pickup_hour df)).
Proof.
  rewrite (Permutation_map ht_pickup_hour (hourly_trips_Permutation df)).
  rewrite map_map. simpl. rewrite <- (groupBy_keys Ingestion.pickup_hour df).
  reflexivity.
Qed.

(** X8. The hourly table has one row per pickup hour of the data, in
    strictly ascending order of the hour (a NULL hour first); the trip
    count of a row is the number of trips of its hour, at least 1, and the
    trip counts of all rows add up to the number of rows of the table. *)
Theorem hourly_trips_spec (df : list TableRow) :
  adjacent strictly_before (map ht_pickup_hour (hourly_trips df)) /\
  (forall k, In k (map ht_pickup_hour (hourly_trips df)) <->
             In k (map Ingestion.pickup_hour df)) /\
  Forall (fun row =>
            ht_trip_count row
            = count (group Ingestion.pickup_hour df (ht_pickup_hour row)) /\
            1 <= ht_trip_count row)
         (hourly_trips df) /\
  sumZ (map ht_trip_count (hourly_trips df)) = count df.
Proof.
  split; [|split; [|split]].
  - apply ascending_NoDup_strict.
    + apply Sorted_map with (RB := fun a b => asc a b = true).
      unfold hourly_trips.
      apply (orderBy_Sorted
               (fun a b => asc (ht_pickup_hour a) (ht_pickup_hour b))).
      intros a b. apply asc_total.
    + apply (Permutation_NoDup (Permutation_sym (hourly_trips_hours df))).
      apply distinct_keys_NoDup.
  - intros k. rewrite <- (distinct_keys_In (map Ingestion.pickup_hour df) k).
    split; intros H.
    + now apply (Permutation_in _ (hourly_trips_hours df)).
    + now apply (Permutation_in _ (Permutation_sym (hourly_trips_hours df))).
  - apply Forall_forall. intros row Hrow.
    apply (Permutation_in _ (hourly_trips_Permutation df)) in Hrow.
    apply in_map_iff in Hrow. destruct Hrow as (g & <- & Hg).
    apply groupBy_In in Hg. destruct Hg as (Hs & _ & Hne). simpl.
    split; [now rewrite Hs | now apply count_positive].
  - rewrite (sumZ_Permutation _ _
               (Permutation_map ht_trip_count (hourly_trips_Permutation df))).
    rewrite map_map. simpl. apply groupBy_counts.
Qed.

Lemma ingestion_hours (tz : Spark.zone) (df_raw : list Ingestion.Row) (k : cell Z) :
  In k (map Ingestion.pickup_hour (Ingestion.df_enhanced tz df_raw)) ->
  exists h, k = Some h /\ 0 <= h < 0 + Z.of_nat 24.
Proof.
  intros H. apply in_map_iff in H. destruct H as (e & <- & He).
  apply df_enhanced_In in He. destruct He as (r & -> & _ & Hs).
  destruct (enhance_clean tz r Hs)
    as (p & d & x & f & _ & _ & _ & _ & _ & _ & _ & _ & Hh & _).
  destruct (hour_of_day (local_seconds tz p)) as [Hhr _].
  eexists. split; [exact Hh | lia].
Qed.

Lemma ingestion_days (tz : Spark.zone) (df_raw : list Ingestion.Row) (k : cell Z) :
  In k (map Ingestion.pickup_day_of_week (Ingestion.df_enhanced tz df_raw)) ->
  exists w, k = Some w /\ 1 <= w < 1 + Z.of_nat 7.
Proof.
  intros H. apply in_map_iff in H. destruct H as (e & <- & He).
  apply df_enhanced_In in He. destruct He as (r & -> & _ & Hs).
  destruct (enhance_clean tz r Hs)
    as (p & d & x & f & _ & _ & _ & _ & _ & _ & _ & _ & _ & Hw & _).
  destruct (day_of_week (local_seconds tz p)) as [Hwr _].
  eexists. split; [exact Hw | lia].
Qed.
End TripPatterns.

Section IngestedPatterns.
Import Spark Python Exploration Analysis.

Lemma hourly_trips_length (df : list TableRow) :
  length (hourly_trips df)
  = length (distinct_keys (map Ingestion.pickup_hour df)).
Proof.
  rewrite <- (Permutation_length (hourly_trips_hours df)).
  now rewrite length_map.
Qed.

(** X9. On the table written by the ingestion notebook the hourly table
    has at most 24 rows, each for an hour from 0 to 23 and none for a NULL
    hour, so that [show(24)] displays all of it. *)
Theorem hourly_trips_show_all (tz : Spark.zone) (df_raw : list Ingestion.Row) :
  let df := Ingestion.df_enhanced tz df_raw in
  (length (hourly_trips df) <= 24)%nat /\
  show 24 (hourly_trips df) = hourly_trips df /\
  Forall (fun row => exists h, ht_pickup_hour row = Some h /\ 0 <= h <= 23)
         (hourly_trips df).
Proof.
  intros df.
  assert (Hlen : (length (hourly_trips df) <= 24)%nat).
  { rewrite hourly_trips_length.
    apply (bounded_keys_length _ 0 24); [apply distinct_keys_NoDup|].
    intros k Hk. apply (proj1 (distinct_keys_In _ _)) in Hk.
    now apply (ingestion_hours tz df_raw). }
  split; [exact Hlen|]. split.
  - unfold show. now apply firstn_all2.
  - apply Forall_forall. intros row Hrow.
    assert (Hk : In (ht_pickup_hour row) (map ht_pickup_hour (hourly_trips df)))
      by now apply in_map.
    apply (Permutation_in _ (hourly_trips_hours df)) in Hk.
    apply (proj1 (distinct_keys_In _ _)) in Hk.
    destruct (ingestion_hours tz df_raw _ Hk) as (h & Hh & Hr).
    exists h. split; [exact Hh | lia].
Qed.

Lemma dow_trips_Permutation (df : list TableRow) :
  Permutation (dow_trips df)
              (map aggregate_dow (groupBy Ingestion.pickup_day_of_week df)).
Proof. unfold dow_trips. apply orderBy_Permutation. Qed.

Lemma dow_trips_days (df : list TableRow) :
  Permutation (map dt_pickup_day_of_week (dow_trips df))
              (distinct_keys (map Ingestion.pickup_day_of_week df)).
Proof.
  rewrite (Permutation_map dt_pickup_day_of_week (dow_trips_Permutation df)).
  rewrite map_map. simpl.
  rewrite <- (groupBy_keys Ingestion.pickup_day_of_week df).
  reflexivity.
Qed.

Lemma dow_trips_day_name (df : list TableRow) (row : DowTrips) :
  In row (dow_trips df) -> day_name row = day_name_of (dt_pickup_day_of_week row).
Proof.
  intros Hrow. apply (Permutation_in _ (dow_trips_Permutation df)) in Hrow.
  apply in_map_iff in Hrow. destruct Hrow as (g & <- & _). reflexivity.
Qed.

Lemma day_name_of_spec (d : cell Z) :
  (day_name_of d = None <->
   d = None \/ exists w, d = Some w /\ (w < 1 \/ 7 < w)) /\
  (forall w, d = Some w -> 1 <= w <= 7 ->
             day_name_of d = nth_error week (Z.to_nat (w - 1))).
Proof.
  destruct d as [w|].
  - assert (Hc : w < 1 \/ w = 1 \/ w = 2 \/ w = 3 \/ w = 4 \/ w = 5 \/ w = 6
                 \/ w = 7 \/ 7 < w) by lia.
    split.
    + split.
      * intros H. right. exists w. split; [reflexivity|].
        destruct Hc as [Hc|[Hc|[Hc|[Hc|[Hc|[Hc|[Hc|[Hc|Hc]]]]]]]];
          try lia; subst w; discriminate.
      * intros [H|(w' & Hw & H)]; [discriminate|].
        injection Hw as <-.
        unfold day_name_of, eqZ, lift2, lit, when_otherwise.
        destruct (Z.eqb_spec w 1); [lia|]. destruct (Z.eqb_spec w 2); [lia|].
        destruct (Z.eqb_spec w 3); [lia|]. destruct (Z.eqb_spec w 4); [lia|].
        destruct (Z.eqb_spec w 5); [lia|]. destruct (Z.eqb_spec w 6); [lia|].
        destruct (Z.eqb_spec w 7); [lia|]. reflexivity.
    + intros w' Hw Hr. injection Hw as <-.
      destruct Hc as [Hc|[Hc|[Hc|[Hc|[Hc|[Hc|[Hc|[Hc|Hc]]]]]]]];
        try lia; subst w; reflexivity.
  - split.
    + split; [now left | reflexivity].
    + intros w Hw. discriminate.
Qed.

(** X10. In the day-of-week table a row has no day name exactly when its
    day number is NULL or outside 1..7.  On the table written by the
    ingestion notebook there are at most 7 rows, in strictly ascending
    order of the day number, and every row carries the name of its day,
    Sunday for 1 through Saturday for 7. *)
Theorem dow_trips_day_names (tz : Spark.zone) (df_raw : list Ingestion.Row)
    (df : list TableRow) :
  Forall (fun row =>
            day_name row = None <->
            dt_pickup_day_of_week row = None \/
            exists w, dt_pickup_day_of_week row = Some w /\ (w < 1 \/ 7 < w))
         (dow_trips df) /\
  adjacent strictly_before (map dt_pickup_day_of_week (dow_trips df)) /\
  (length (dow_trips (Ingestion.df_enhanced tz df_raw)) <= 7)%nat /\
  Forall (fun row =>
            exists w, dt_pickup_day_of_week row = Some w /\ 1 <= w <= 7 /\
                      day_name row = nth_error week (Z.to_nat (w - 1)) /\
                      day_name row <> None)
         (dow_trips (Ingestion.df_enhanced tz df_raw)).
Proof.
  split; [|split; [|split]].
  - apply Forall_forall. intros row Hrow.
    rewrite (dow_trips_day_name df row Hrow).
    apply day_name_of_spec.
  - apply ascending_NoDup_strict.
    + apply Sorted_map with (RB := fun a b => asc a b = true).
      unfold dow_trips.
      apply (orderBy_Sorted
               (fun a b => asc (dt_pickup_day_of_week a)
                               (dt_pickup_day_of_week b))).
      intros a b. apply asc_total.
    + apply (Permutation_NoDup (Permutation_sym (dow_trips_days df))).
      apply distinct_keys_NoDup.
  - rewrite <- (length_map dt_pickup_day_of_week).
    rewrite (Permutation_length (dow_trips_days _)).
    apply (bounded_keys_length _ 1 7); [apply distinct_keys_NoDup|].
    intros k Hk. apply (proj1 (distinct_keys_In _ _)) in Hk.
    now apply (ingestion_days tz df_raw).
  - apply Forall_forall. intros row Hrow.
    rewrite (dow_trips_day_name _ row Hrow).
    assert (Hk : In (dt_pickup_day_of_week row)
                    (map dt_pickup_day_of_week
                         (dow_trips (Ingestion.df_enhanced tz df_raw))))
      by now apply in_map.
    apply (Permutation_in _ (dow_trips_days _)) in Hk.
    apply (proj1 (distinct_keys_In _ _)) in Hk.
    destruct (ingestion_days tz df_raw _ Hk) as (w & Hw & Hr).
    exists w. split; [exact Hw|]. split; [lia|].
    destruct (day_name_of_spec (dt_pickup_day_of_week row)) as [Hnone Hname].
    split; [apply Hname; [exact Hw | lia]|].
    intros Hn. apply Hnone in Hn.
    destruct Hn as [Hn|(w' & Hw' & Hn)]; [congruence|].
    rewrite Hw in Hw'. injection Hw' as <-. lia.
Qed.

(** X11. The sampling fraction of the plots is 10000 over the number of
    rows: computing it raises ZeroDivisionError exactly on an empty table;
    otherwise it is positive, and it is at most 1, as a sampling fraction
    has to be, exactly when the table has at least 10000 rows. *)
Theorem sample_fraction_spec (df : list TableRow) :
  (sample_fraction df = Raises ZeroDivisionError <-> df = []) /\
  (df <> [] ->
   exists f, sample_fraction df = Returns f /\ (0 < f)%Q /\
             ((f <= 1)%Q <-> 10000 <= count df)).
Proof.
  unfold sample_fraction, true_div, sample_size.
  pose proof (count_nonneg df) as HN.
  destruct (count df =? 0) eqn:E.
  - apply Z.eqb_eq in E. apply (proj1 (count_zero_nil df)) in E. split.
    + split; [intros _; exact E | reflexivity].
    + intros Hne. contradiction.
  - apply Z.eqb_neq in E. split.
    + split; [discriminate|]. intros H.
      apply (proj2 (count_zero_nil df)) in H. contradiction.
    + intros _. eexists. split; [reflexivity|].
      assert (Hp : (0 < inject_Z (count df))%Q).
      { change 0%Q with (inject_Z 0). rewrite <- Zlt_Qlt. lia. }
      change (inject_Z 10000) with 10000%Q.
      split.
      * apply Qlt_shift_div_l; [exact Hp | lra].
      * rewrite (Zle_Qle 10000 (count df)).
        change (inject_Z 10000) with 10000%Q.
        split; intros H.
        -- apply (Qmult_le_r _ _ (inject_Z (count df))) in H; [|exact Hp].
           rewrite Qmult_1_l in H.
           assert (E1 : (10000 / inject_Z (count df) * inject_Z (count df)
                         == 10000)%Q) by (field; lra).
           lra.
        -- apply Qle_shift_div_r; [exact Hp | lra].
Qed.
End IngestedPatterns.

(** ** Revenue and peak hours *)

Section Averages.
Import Spark.

Lemma non_null_In {A : Type} (cs : list (cell A)) (x : A) :
  In x (non_null cs) <-> In (Some x) cs.
Proof.
  unfold non_null. rewrite in_flat_map. split.
  - intros (c & Hc & Hx). destruct c as [y|]; simpl in Hx; [|contradiction].
    destruct Hx as [<-|[]]. exact Hc.
  - intros H. exists (Some x). split; [exact H | now left].
Qed.

Lemma non_null_length {A : Type} (cs : list (cell A)) :
  (forall c, In c cs -> c <> None) -> length (non_null cs) = length cs.
Proof.
  induction cs as [|c cs IH]; intros H; simpl; [reflexivity|].
  destruct c as [x|].
  - simpl. f_equal. apply IH. intros c Hc. apply H. now right.
  - exfalso. apply (H None); [now left | reflexivity].
Qed.

Lemma count_cons {A : Type} (x : A) (xs : list A) :
  (inject_Z (count (x :: xs)) == inject_Z (count xs) + 1)%Q.
Proof.
  unfold count. simpl length. rewrite Nat2Z.inj_succ, <- Z.add_1_r.
  rewrite inject_Z_plus. reflexivity.
Qed.

Lemma sumQ_bounds (xs : list Q) (lo hi : Q) :
  (forall q, In q xs -> (lo <= q)%Q /\ (q <= hi)%Q) ->
  (lo * inject_Z (count xs) <= sumQ xs)%Q /\
  (sumQ xs <= hi * inject_Z (count xs))%Q.
Proof.
  induction xs as [|x xs IH]; intros H.
  - change (inject_Z (count (@nil Q))) with 0%Q.
    change (sumQ []) with 0%Q. lra.
  - destruct IH as [IH1 IH2]; [intros q Hq; apply H; now right|].
    destruct (H x) as [Hx1 Hx2]; [now left|].
    rewrite count_cons.
    change (sumQ (x :: xs)) with (x + sumQ xs)%Q.
    split; nra.
Qed.

Lemma avg_value (cs : list (cell Q)) :
  non_null cs <> [] ->
  avg cs = Some (sumQ (non_null cs) / inject_Z (count (non_null cs)))%Q.
Proof.
  unfold avg. destruct (non_null cs); [congruence | reflexivity].
Qed.

Lemma count_pos_Q {A : Type} (l : list A) :
  l <> [] -> (0 < inject_Z (count l))%Q.
Proof.
  intros H. change 0%Q with (inject_Z 0). rewrite <- Zlt_Qlt.
  pose proof (count_positive l H). lia.
Qed.

(** The mean of cells that are all numbers within [lo, hi]. *)
Lemma avg_bounds (cs : list (cell Q)) (lo hi : Q) :
  cs <> [] ->
  (forall c, In c cs -> exists q, c = Some q /\ (lo <= q)%Q /\ (q <= hi)%Q) ->
  count (non_null cs) = count cs /\
  exists a, avg cs = Some a /\ (lo <= a)%Q /\ (a <= hi)%Q.
Proof.
  intros Hne H.
  assert (Hlen : length (non_null cs) = length cs).
  { apply non_null_length. intros c Hc. destruct (H c Hc) as (q & -> & _).
    discriminate. }
  assert (Hcount : count (non_null cs) = count cs)
    by (unfold count; now rewrite Hlen).
  assert (Hnn : non_null cs <> []).
  { intros E. rewrite E in Hlen. destruct cs; [congruence | discriminate]. }
  split; [exact Hcount|].
  rewrite (avg_value cs Hnn). eexists. split; [reflexivity|].
  destruct (sumQ_bounds (non_null cs) lo hi) as [Hs1 Hs2].
  { intros q Hq. apply non_null_In in Hq. destruct (H _ Hq) as (q' & E & Hq').
    injection E as <-. exact Hq'. }
  pose proof (count_pos_Q _ Hnn) as Hp.
  split; [apply Qle_shift_div_l; [exact Hp | lra]|].
  apply Qle_shift_div_r; [exact Hp | lra].
Qed.
End Averages.

Section RevenueValues.
Import Spark Exploration Analysis.

Lemma hourly_revenue_row (df : list TableRow) (row : Revenue) :
  In row (hourly_revenue df) ->
  exists k,
    row = aggregate (k, group Ingestion.pickup_hour df k) /\
    group Ingestion.pickup_hour df k <> [].
Proof.
  intros Hrow.
  apply (Permutation_in _ (hourly_revenue_Permutation df)) in Hrow.
  apply in_map_iff in Hrow. destruct Hrow as (g & <- & Hg).
  apply groupBy_In in Hg. destruct Hg as (Hs & _ & Hne).
  exists (fst g). destruct g as [k rows]. simpl in *. subst rows.
  split; [reflexivity | exact Hne].
Qed.

(** X13. On the table written by the ingestion notebook no hour has a
    NULL mean fare or a NULL revenue: the mean fare lies between 0 and
    500, and the total revenue between 0 and 500 times the trip count. *)
Theorem hourly_revenue_of_ingestion (tz : Spark.zone) (df_raw : list Ingestion.Row) :
  Forall (fun row =>
            exists a t,
              avg_fare row = Some a /\ (0 <= a)%Q /\ (a <= 500)%Q /\
              total_revenue row = Some t /\ (0 <= t)%Q /\
              (t <= 500 * inject_Z (trip_count row))%Q)
         (hourly_revenue (Ingestion.df_enhanced tz df_raw)).
Proof.
  apply Forall_forall. intros row Hrow.
  destruct (hourly_revenue_row _ row Hrow) as (k & -> & Hne).
  unfold aggregate. cbn [fst snd total_revenue avg_fare trip_count].
  set (g := group Ingestion.pickup_hour (Ingestion.df_enhanced tz df_raw) k)
    in *.
  set (fares := map (fun e => Ingestion.fare_amount (Ingestion.trip e)) g).
  destruct (avg_bounds fares 0 500) as (_ & a & Ha & Ha0 & Ha1).
  - subst fares. destruct g; [congruence | discriminate].
  - intros c Hc. subst fares. apply in_map_iff in Hc.
    destruct Hc as (e & <- & He). apply group_In in He. destruct He as [He _].
    apply df_enhanced_In in He. destruct He as (r & -> & _ & Hs).
    destruct (enhance_clean tz r Hs)
      as (p & d & x & f & _ & _ & Hf & _ & Hf0 & Hf5 & _).
    exists f. simpl. tauto.
  - rewrite Ha. unfold mulQ, lift2, to_double, lit, option_map.
    exists a, (a * inject_Z (count g))%Q.
    split; [reflexivity|]. split; [exact Ha0|]. split; [exact Ha1|].
    split; [reflexivity|].
    pose proof (count_pos_Q g Hne) as Hp.
    split.
    + apply Qmult_le_0_compat; [exact Ha0 | now apply Qlt_le_weak].
    + apply Qmult_le_compat_r; [exact Ha1 | now apply Qlt_le_weak].
Qed.
End RevenueValues.

Section Ranking.
Import Spark Exploration Analysis.

Lemma desc_trans (a b c : cell Q) :
  desc a b = true -> desc b c = true -> desc a c = true.
Proof.
  destruct a as [x|], b as [y|], c as [z|]; simpl; try congruence.
  rewrite !Qle_bool_iff. intros H1 H2. lra.
Qed.

Lemma NoDup_firstn {A : Type} (n : nat) (l : list A) :
  NoDup l -> NoDup (firstn n l).
Proof.
  intros H. rewrite <- (firstn_skipn n l) in H.
  now apply NoDup_app_remove_r in H.
Qed.

(** X14. The five reported revenue rows are the first five of the
    ranking, all of it when the table has fewer than five hours, and no
    hour left out of the report has a higher revenue than a reported one. *)
Theorem top_revenue_hours_maximal (df : list TableRow) :
  hourly_revenue df = top_revenue_hours df ++ skipn 5 (hourly_revenue df) /\
  length (top_revenue_hours df)
  = Nat.min 5 (length (distinct_keys (map Ingestion.pickup_hour df))) /\
  Forall (fun a =>
            Forall (fun b => greater_or_equal a b)
                   (skipn 5 (hourly_revenue df)))
         (top_revenue_hours df).
Proof.
  unfold top_revenue_hours, show. split; [|split].
  - symmetry. apply firstn_skipn.
  - rewrite length_firstn. f_equal.
    rewrite <- (length_map revenue_hour).
    apply Permutation_length, hourly_revenue_hours.
  - apply Forall_forall. intros a Ha. apply Forall_forall. intros b Hb.
    apply desc_greater_or_equal.
    apply (firstn_before_skipn
             (fun a b => desc (total_revenue a) (total_revenue b)) 5
             (hourly_revenue df)); [|exact Ha | exact Hb].
    unfold hourly_revenue. apply orderBy_StronglySorted.
    + intros x y. apply desc_total.
    + intros x y z. apply desc_trans.
Qed.

Lemma desc_count_total (a b : Z) :
  desc_count a b = false -> desc_count b a = true.
Proof. unfold desc_count. rewrite Z.leb_gt, Z.leb_le. lia. Qed.

Lemma desc_count_trans (a b c : Z) :
  desc_count a b = true -> desc_count b c = true -> desc_count a c = true.
Proof. unfold desc_count. rewrite !Z.leb_le. lia. Qed.

Lemma ranked_hours_Permutation (df : list TableRow) :
  Permutation (ranked_hours df) (hour_counts df).
Proof. apply orderBy_Permutation. Qed.

Lemma hour_counts_keys (df : list TableRow) :
  map fst (hour_counts df) = distinct_keys (map Ingestion.pickup_hour df).
Proof.
  unfold hour_counts. rewrite map_map. simpl.
  apply (groupBy_keys Ingestion.pickup_hour).
Qed.

Lemma hour_counts_In (df : list TableRow) (hc : cell Z * Z) :
  In hc (hour_counts df) <->
  In (fst hc) (map Ingestion.pickup_hour df) /\
  snd hc = count (group Ingestion.pickup_hour df (fst hc)).
Proof.
  unfold hour_counts, groupBy. rewrite map_map. simpl. rewrite in_map_iff.
  split.
  - intros (k & <- & Hk). apply (proj1 (distinct_keys_In _ _)) in Hk.
    simpl. tauto.
  - intros [Hk Hc]. exists (fst hc). split.
    + destruct hc as [k c]. simpl in *. now subst c.
    + now apply distinct_keys_In.
Qed.

(** X15. The peak hours are at most three hours of the table, all of them
    when the table has fewer than three, each reported once and with its
    number of trips, which is at least 1; they come in descending order of
    that number, and an hour of the table that is not reported has no more
    trips than any reported hour. *)
Theorem peak_hours_spec (df : list TableRow) :
  length (peak_hours df)
  = Nat.min 3 (length (distinct_keys (map Ingestion.pickup_hour df))) /\
  NoDup (map fst (peak_hours df)) /\
  Forall (fun hc =>
            In (fst hc) (map Ingestion.pickup_hour df) /\
            snd hc = count (group Ingestion.pickup_hour df (fst hc)) /\
            1 <= snd hc)
         (peak_hours df) /\
  adjacent (fun a b => snd b <= snd a) (peak_hours df) /\
  (forall e,
      In e df -> ~ In (Ingestion.pickup_hour e) (map fst (peak_hours df)) ->
      Forall (fun hc =>
                count (group Ingestion.pickup_hour df (Ingestion.pickup_hour e))
                <= snd hc)
             (peak_hours df)).
Proof.
  unfold peak_hours.
  assert (Hkeys : Permutation (map fst (ranked_hours df))
                    (distinct_keys (map Ingestion.pickup_hour df))).
  { rewrite (Permutation_map fst (ranked_hours_Permutation df)).
    now rewrite hour_counts_keys. }
  assert (Hsort : StronglySorted
                    (fun a b : cell Z * Z => desc_count (snd a) (snd b) = true)
                    (ranked_hours df)).
  { unfold ranked_hours.
    apply (orderBy_StronglySorted
             (fun a b : cell Z * Z => desc_count (snd a) (snd b))).
    - intros a b. apply desc_count_total.
    - intros a b c. apply desc_count_trans. }
  split; [|split; [|split; [|split]]].
  - rewrite length_firstn. f_equal.
    rewrite <- (length_map fst). now apply Permutation_length.
  - rewrite <- firstn_map. apply NoDup_firstn.
    apply (Permutation_NoDup (Permutation_sym Hkeys)).
    apply distinct_keys_NoDup.
  - apply Forall_forall. intros hc Hhc.
    assert (Hin : In hc (ranked_hours df)).
    { rewrite <- (firstn_skipn 3 (ranked_hours df)).
      apply in_or_app. now left. }
    apply (Permutation_in _ (ranked_hours_Permutation df)) in Hin.
    apply hour_counts_In in Hin. destruct Hin as [Hk Hc].
    split; [exact Hk|]. split; [exact Hc|].
    rewrite Hc. apply count_positive.
    apply in_map_iff in Hk. destruct Hk as (e & He & Hin).
    intros Hnil.
    assert (Hg : In e (group Ingestion.pickup_hour df (fst hc)))
      by (apply group_In; tauto).
    rewrite Hnil in Hg. contradiction.
  - apply adjacent_firstn.
    apply adjacent_impl
      with (R := fun a b : cell Z * Z => desc_count (snd a) (snd b) = true).
    + intros a b. unfold desc_count. apply Z.leb_le.
    + apply Sorted_adjacent. now apply StronglySorted_Sorted.
  - intros e He Hout. apply Forall_forall. intros hc Hhc.
    set (k := Ingestion.pickup_hour e) in *.
    set (c := count (group Ingestion.pickup_hour df k)).
    assert (Hin : In (k, c) (ranked_hours df)).
    { apply (Permutation_in _ (Permutation_sym (ranked_hours_Permutation df))).
      apply hour_counts_In. simpl. split; [|reflexivity].
      subst k. now apply in_map. }
    rewrite <- (firstn_skipn 3 (ranked_hours df)) in Hin.
    apply in_app_or in Hin. destruct Hin as [Hin|Hin].
    + exfalso. apply Hout. change k with (fst (k, c)). now apply in_map.
    + pose proof (firstn_before_skipn
                    (fun a b : cell Z * Z => desc_count (snd a) (snd b))
                    3 (ranked_hours df) Hsort hc (k, c) Hhc Hin) as Hb.
      unfold desc_count in Hb. simpl in Hb. now apply Z.leb_le in Hb.
Qed.

Example peak_hours_sample :
  peak_hours [Ingestion.enhance Spark.UTC Samples.sunday_trip;
              Ingestion.enhance Spark.UTC Samples.sunday_9am_trip;
              Ingestion.enhance Spark.UTC Samples.sunday_9am_trip]
  = [(Some 9, 2); (Some 8, 1)].
Proof. reflexivity. Qed.
End Ranking.

(** ** From ingestion to the modeling subset *)

Section IngestionToModel.
Import Spark Analysis.

(** X16. On the table written by the ingestion notebook, the speed that
    the analysis recomputes without a guard is, on every row of the
    modeling subset, the speed that ingestion stored with its guard. *)
Theorem recomputed_speed_is_stored_speed (tz : Spark.zone) (df_raw : list Ingestion.Row) :
  Forall (fun x =>
            exists e,
              In e (Ingestion.df_enhanced tz df_raw) /\
              selected x = select e /\
              trip_speed_mph x = Ingestion.trip_speed_mph e)
         (ml_df (Ingestion.df_enhanced tz df_raw)).
Proof.
  apply Forall_forall. intros x Hx. unfold ml_df in Hx.
  apply in_map_iff in Hx. destruct Hx as (m & <- & Hm).
  apply holds_filter_In in Hm. destruct Hm as [Hm Hc].
  apply in_map_iff in Hm. destruct Hm as (e & <- & He).
  exists e. split; [exact He|]. split; [reflexivity|].
  apply ml_condition_spec in Hc.
  destruct Hc as (f & dist & t & _ & _ & _ & Hd & _ & _ & Ht & Ht1 & _).
  apply df_enhanced_In in He. destruct He as (r & -> & _ & Hs).
  destruct (enhance_clean tz r Hs)
    as (p & d & x & f' & _ & Hx & _ & _ & _ & _ & _ & Hdur & _ & _ & Hspeed).
  simpl in Hd, Ht. rewrite Hx in Hd. injection Hd as <-.
  unfold Ingestion.enhance in Hdur. simpl in Hdur.
  rewrite Hdur in Ht. injection Ht as Et.
  set (s := d / MICROS_PER_SECOND - p / MICROS_PER_SECOND) in *.
  destruct Hspeed as [[_ Hv]|[Hz _]].
  - rewrite Hv. rewrite Et.
    unfold add_features. cbn [trip_speed_mph select trip_distance
                               trip_duration_minutes].
    cbn [Ingestion.trip Ingestion.trip_duration_minutes Ingestion.enhance].
    unfold Ingestion.enhance in Hdur |- *. simpl in Hdur |- *.
    rewrite Hx. rewrite Hdur. rewrite Et. simpl.
    assert (E0 : Qeq_bool (t / inject_Z 60) 0 = false).
    { apply not_true_iff_false. intros H0. apply Qeq_bool_iff in H0.
      assert (0 < t / inject_Z 60)%Q.
      { unfold Qdiv. apply Qmult_lt_0_compat; [lra | reflexivity]. }
      lra. }
    rewrite E0. reflexivity.
  - exfalso. rewrite Hz in Et. rewrite <- Et in Ht1.
    revert Ht1. unfold Qlt. simpl. lia.
Qed.
End IngestionToModel.

(** ** The partitioned table *)

Section Partitions.
Import Spark Ingestion.
Context {R : Type} (key : R -> cell Z).

Lemma groups_Permutation (df : list R) (ks : list (cell Z)) :
  NoDup ks ->
  Permutation (concat (map (group key df) ks))
              (List.filter (fun r => existsb (same_key (key r)) ks) df).
Proof.
  induction 1 as [|k ks Hk Hnd IH]; simpl.
  - induction df as [|r df IHdf]; simpl; auto.
  - rewrite IH. clear IH.
    induction df as [|r df IHdf]; simpl; [reflexivity|].
    destruct (same_key k (key r)) eqn:E.
    + apply same_key_eq in E. subst k.
      assert (E1 : same_key (key r) (key r) = true) by now apply same_key_eq.
      rewrite E1. simpl.
      assert (E2 : existsb (same_key (key r)) ks = false).
      { apply not_true_iff_false. intros H. apply existsb_exists in H.
        destruct H as (k' & Hin & Hk'). apply same_key_eq in Hk'.
        subst k'. contradiction. }
      rewrite E2. simpl. now constructor.
    + assert (E1 : same_key (key r) k = false).
      { apply same_key_neq. apply same_key_neq in E. congruence. }
      rewrite E1. simpl.
      destruct (existsb (same_key (key r)) ks); simpl; [|exact IHdf].
      rewrite <- IHdf. symmetry. apply Permutation_middle.
Qed.

Lemma groupBy_Permutation (df : list R) :
  Permutation (concat (map snd (groupBy key df))) df.
Proof.
  unfold groupBy. rewrite map_map. simpl.
  rewrite groups_Permutation by apply distinct_keys_NoDup.
  rewrite forallb_filter_id; [reflexivity|].
  apply forallb_forall. intros r Hr. apply existsb_exists.
  exists (key r). split.
  - apply distinct_keys_In. now apply in_map.
  - now apply same_key_eq.
Qed.
End Partitions.

Section DeltaPartitions.
Import Spark Ingestion.

(** X17. Writing the enhanced dataset partitioned by day of week and
    reading it back returns the same rows, each as often as it was written,
    possibly in another order: every partition holds the rows of one day,
    no two partitions are for the same day, and there are at most seven
    partitions. *)
Theorem delta_partitions (tz : Spark.zone) (df_raw : list Row) :
  let df := df_enhanced tz df_raw in
  Permutation (delta_load (delta_save df)) df /\
  Forall (fun part =>
            snd part <> [] /\
            Forall (fun e => pickup_day_of_week e = fst part) (snd part))
         (delta_save df) /\
  NoDup (map fst (delta_save df)) /\
  (length (delta_save df) <= 7)%nat.
Proof.
  intros df. unfold delta_load, delta_save.
  split; [apply groupBy_Permutation|]. split; [|split].
  - apply Forall_forall. intros part Hpart.
    apply groupBy_In in Hpart. destruct Hpart as (Hs & _ & Hne).
    split; [exact Hne|]. rewrite Hs. apply Forall_forall.
    intros e He. apply group_In in He. tauto.
  - rewrite groupBy_keys. apply distinct_keys_NoDup.
  - rewrite <- (length_map fst), groupBy_keys.
    apply (bounded_keys_length _ 1 7); [apply distinct_keys_NoDup|].
    intros k Hk. apply (proj1 (distinct_keys_In _ _)) in Hk.
    now apply (ingestion_days tz df_raw).
Qed.
End DeltaPartitions.

(** ** The period covered by the data *)

Section DataPeriod.
Import Spark Exploration Analysis.

Lemma fold_min_spec (x : Z) (xs : list Z) :
  In (fold_right Z.min x xs) (x :: xs) /\
  forall y, In y (x :: xs) -> fold_right Z.min x xs <= y.
Proof.
  induction xs as [|a xs [IHin IHle]]; simpl.
  - split; [now left|]. intros y [<-|[]]. lia.
  - split.
    + destruct (Z.min_spec a (fold_right Z.min x xs)) as [[_ ->]|[_ ->]].
      * right. now left.
      * simpl in IHin. tauto.
    + intros y [<-|[<-|Hy]].
      * specialize (IHle x (or_introl eq_refl)). lia.
      * lia.
      * specialize (IHle y (or_intror Hy)). lia.
Qed.

Lemma fold_max_spec (x : Z) (xs : list Z) :
  In (fold_right Z.max x xs) (x :: xs) /\
  forall y, In y (x :: xs) -> y <= fold_right Z.max x xs.
Proof.
  induction xs as [|a xs [IHin IHle]]; simpl.
  - split; [now left|]. intros y [<-|[]]. lia.
  - split.
    + destruct (Z.max_spec a (fold_right Z.max x xs)) as [[_ ->]|[_ ->]].
      * simpl in IHin. tauto.
      * right. now left.
    + intros y [<-|[<-|Hy]].
      * specialize (IHle x (or_introl eq_refl)). lia.
      * lia.
      * specialize (IHle y (or_intror Hy)). lia.
Qed.

Lemma non_null_nil {A : Type} (cs : list (cell A)) :
  non_null cs = [] <-> forall c, In c cs -> c = None.
Proof.
  split.
  - intros H c Hc. destruct c as [x|]; [|reflexivity].
    apply non_null_In in Hc. rewrite H in Hc. contradiction.
  - intros H. destruct (non_null cs) as [|x xs] eqn:E; [reflexivity|].
    assert (Hx : In x (non_null cs)) by (rewrite E; now left).
    apply non_null_In in Hx. apply H in Hx. discriminate.
Qed.

(** X18. The period printed at the start of the analysis: both bounds are
    NULL exactly when no row has a pickup time, as on an empty table;
    otherwise both are pickup times of the table, the first not after the
    second, and every pickup time of the table lies between them. *)
Theorem data_period_spec (df : list TableRow) :
  (fst (data_period df) = None <-> forall e, In e df -> pickup e = None) /\
  (snd (data_period df) = None <-> fst (data_period df) = None) /\
  (forall lo hi,
      data_period df = (Some lo, Some hi) ->
      lo <= hi /\
      (exists e, In e df /\ pickup e = Some lo) /\
      (exists e, In e df /\ pickup e = Some hi) /\
      forall e t, In e df -> pickup e = Some t -> lo <= t <= hi).
Proof.
  unfold data_period, min_agg, max_agg. cbn [fst snd].
  assert (Hnil : @non_null Z (map pickup df) = [] <->
                 forall e, In e df -> pickup e = None).
  { rewrite non_null_nil. split.
    - intros H e He. apply H. now apply in_map.
    - intros H c Hc. apply in_map_iff in Hc. destruct Hc as (e & <- & He).
      now apply H. }
  assert (Hmem : forall t, In t (@non_null Z (map pickup df)) <->
                           exists e, In e df /\ pickup e = Some t).
  { intros t. rewrite non_null_In, in_map_iff. split.
    - intros (e & He & Hin). now exists e.
    - intros (e & Hin & He). now exists e. }
  destruct (@non_null Z (map pickup df)) as [|x xs] eqn:E.
  - split; [|split].
    + split; [intros _; now apply Hnil | reflexivity].
    + split; reflexivity.
    + intros lo hi H. discriminate.
  - split; [|split].
    + split; [discriminate|]. intros H. apply Hnil in H. discriminate.
    + split; discriminate.
    + intros lo hi H. injection H as <- <-.
      destruct (fold_min_spec x xs) as [Hmin_in Hmin].
      destruct (fold_max_spec x xs) as [Hmax_in Hmax].
      split; [|split; [|split]].
      * specialize (Hmin x (or_introl eq_refl)).
        specialize (Hmax x (or_introl eq_refl)). lia.
      * now apply Hmem.
      * now apply Hmem.
      * intros e t He Ht.
        assert (Hin : In t (x :: xs)) by (apply Hmem; now exists e).
        split; [now apply Hmin | now apply Hmax].
Qed.
End DataPeriod.
